(** * ANGELDEMOAPP: the forecast wizard front end (frontend/src)

    A shallow embedding of [frontend/src/types.ts] and of the state and event
    handlers of [frontend/src/App.tsx], followed by the properties the
    specification states about them.

    - JavaScript strings are [string]s holding the UTF-8 bytes of the text.
    - JavaScript numbers that are indices or step counters are [Z]; numbers
      carried by a JSON payload are [Q] (a JSON number is a finite decimal).
    - [T | null] is [option T] serialised as [null]; an optional property
      [f?: T] is [option T] serialised by leaving the key out.
    - The React state of [App] is one record; every event handler is a function
      from state to state, and what the network answers is an argument. *)

From Stdlib Require Import List String Ascii Bool ZArith QArith Lia.
Import ListNotations.
Set Warnings "-register-all".
Open Scope string_scope.
Open Scope Z_scope.

(** ** JavaScript strings and the regular expressions of [onUpload] *)

Module Js.

(** ASCII case folding. Without the [u] flag, [/.../i] folds a code unit through
    [toUpperCase] and never maps a code unit >= 128 to one < 128, so only the
    letters A-Z / a-z are identified with each other; bytes >= 128 of a UTF-8
    sequence are left alone. *)
Definition fold_ascii (c : ascii) : ascii :=
  let n := nat_of_ascii c in
  if (Nat.leb 65 n && Nat.leb n 90)%bool then ascii_of_nat (n + 32) else c.

Fixpoint fold_case (s : string) : string :=
  match s with
  | EmptyString => EmptyString
  | String c rest => String (fold_ascii c) (fold_case rest)
  end.

(** [hay.includes(needle)]: [needle] occurs somewhere in [hay]. *)
Fixpoint includes (needle hay : string) : bool :=
  (String.prefix needle hay
   || match hay with
      | EmptyString => false
      | String _ rest => includes needle rest
      end)%bool.

(** A regular expression literal of the shape [/lit1|lit2|.../] with an
    optional [i] flag: the only shape the application uses. *)
Record RegExp : Type := mkRegExp {
  alternatives : list string;
  ignoreCase : bool
}.

Definition canonicalize (re : RegExp) (s : string) : string :=
  if ignoreCase re then fold_case s else s.

(** [re.test(s)]: unanchored, so some alternative occurs somewhere in [s]. *)
Definition test (re : RegExp) (s : string) : bool :=
  existsb (fun alt => includes (canonicalize re alt) (canonicalize re s))
          (alternatives re).

(** Truthiness of a [string | undefined]: [undefined] and [''] are falsy. *)
Definition truthy (v : option string) : bool :=
  match v with
  | Some s => negb (String.eqb s "")
  | None => false
  end.

(** [a || b] on [string | undefined]. *)
Definition or (a b : option string) : option string :=
  if truthy a then a else b.

(** [a || ''] where the result is used as a [string]. *)
Definition or_empty (a : option string) : string :=
  match or a (Some "") with
  | Some s => s
  | None => ""
  end.

(** [arr[i]] for a number [i]: [undefined] out of range. *)
Definition index {A : Type} (arr : list A) (i : Z) : option A :=
  if i <? 0 then None else nth_error arr (Z.to_nat i).

(** [!!s] for a string. *)
Definition nonempty (s : string) : bool := negb (String.eqb s "").



End Js.

(** ** JSON values and the structural types of [types.ts] *)

Inductive json : Type :=
| JNull
| JBool (b : bool)
| JNum (q : Q)
| JStr (s : string)
| JArr (items : list json)
| JObj (props : list (string * json)).

(** Property lookup in an object literal or a field list. *)
Fixpoint lookup {A : Type} (k : string) (ps : list (string * A)) : option A :=
  match ps with
  | [] => None
  | (k', v) :: rest => if String.eqb k k' then Some v else lookup k rest
  end.

Definition keys {A : Type} (ps : list (string * A)) : list string :=
  map fst ps.

(** The fragment of TypeScript's type language that [types.ts] uses. A field
    carries its [?] marker. *)
Inductive ty : Type :=
| TString
| TNumber
| TNull
| TUnion (a b : ty)
| TArray (elem : ty)
| TObject (fields : list (string * (bool * ty)))
| TDict (value : ty).

Definition required : bool := false.
Definition optional : bool := true.

(** Structural conformance of a JSON value to a type: every declared field is
    there with its type, unless it is optional and absent. Further
    properties are allowed, as in TypeScript. *)
Fixpoint has_type (t : ty) (v : json) {struct t} : bool :=
  match t with
  | TString => match v with JStr _ => true | _ => false end
  | TNumber => match v with JNum _ => true | _ => false end
  | TNull => match v with JNull => true | _ => false end
  | TUnion a b => (has_type a v || has_type b v)%bool
  | TArray e =>
      match v with
      | JArr items => forallb (has_type e) items
      | _ => false
      end
  | TObject fs =>
      match v with
      | JObj ps =>
          (fix fields_ok (fs : list (string * (bool * ty))) : bool :=
             match fs with
             | [] => true
             | (name, (opt, t')) :: rest =>
                 (match lookup name ps with
                  | Some x => has_type t' x
                  | None => opt
                  end && fields_ok rest)%bool
             end) fs
      | _ => false
      end
  | TDict e =>
      match v with
      | JObj ps => forallb (fun p => has_type e (snd p)) ps
      | _ => false
      end
  end.

(** The declared field names of an object type, in declaration order. *)
Definition field_names (t : ty) : list string :=
  match t with
  | TObject fs => keys fs
  | _ => []
  end.

Definition required_names (t : ty) : list string :=
  match t with
  | TObject fs => keys (filter (fun f => negb (fst (snd f))) fs)
  | _ => []
  end.

(** The type of a field of an object type. *)
Definition field_type (t : ty) (name : string) : option ty :=
  match t with
  | TObject fs => option_map snd (lookup name fs)
  | _ => None
  end.

(** [v.k1.k2...]: following property names into a value; an array or a
    primitive has none of the names used here. *)
Fixpoint path_exists (v : json) (path : list string) : bool :=
  match path with
  | [] => true
  | k :: rest =>
      match v with
      | JObj ps =>
          match lookup k ps with
          | Some x => path_exists x rest
          | None => false
          end
      | _ => false
      end
  end.

(** ** [types.ts]

    Each exported or inline object type is a module with the record [t] of its
    values, its declaration [type] as data, and [toJSON], what
    [JSON.stringify] makes of a value (an absent optional property is left
    out, [null] is kept). *)

Definition req (name : string) (t : ty) : string * (bool * ty) :=
  (name, (required, t)).
Definition opt (name : string) (t : ty) : string * (bool * ty) :=
  (name, (optional, t)).
Definition nullable (t : ty) : ty := TUnion t TNull.

Definition or_null {A : Type} (f : A -> json) (o : option A) : json :=
  match o with
  | Some a => f a
  | None => JNull
  end.

Definition prop_opt {A : Type} (k : string) (f : A -> json) (o : option A)
  : list (string * json) :=
  match o with
  | Some a => [(k, f a)]
  | None => []
  end.

Definition arr {A : Type} (f : A -> json) (l : list A) : json :=
  JArr (map f l).

Module ForecastPoint.
Record t : Type := mk {
  ds : string; yhat : Q; yhat_lower : Q; yhat_upper : Q
}.
Definition type : ty :=
  TObject [req "ds" TString; req "yhat" TNumber;
           req "yhat_lower" TNumber; req "yhat_upper" TNumber].
Definition toJSON (p : t) : json :=
  JObj [("ds", JStr (ds p)); ("yhat", JNum (yhat p));
        ("yhat_lower", JNum (yhat_lower p));
        ("yhat_upper", JNum (yhat_upper p))].
End ForecastPoint.

Module HistoryPoint.
Record t : Type := mk { ds : string; y : Q }.
Definition type : ty := TObject [req "ds" TString; req "y" TNumber].
Definition toJSON (p : t) : json :=
  JObj [("ds", JStr (ds p)); ("y", JNum (y p))].
End HistoryPoint.

Module Diagnostics.
Record t : Type := mk { outliers : Q; missing : Q; deduped : Q }.
Definition type : ty :=
  TObject [req "outliers" TNumber; req "missing" TNumber;
           req "deduped" TNumber].
Definition toJSON (d : t) : json :=
  JObj [("outliers", JNum (outliers d)); ("missing", JNum (missing d));
        ("deduped", JNum (deduped d))].
End Diagnostics.

Module Profile.
Record t : Type := mk {
  rows : Q; date_min : option string; date_max : option string;
  mean : option Q; median : option Q; min : option Q; max : option Q;
  std : option Q; cv : option Q; missing : Q; duplicates : Q; outliers : Q
}.
Definition type : ty :=
  TObject [req "rows" TNumber;
           req "date_min" (nullable TString);
           req "date_max" (nullable TString);
           req "mean" (nullable TNumber); req "median" (nullable TNumber);
           req "min" (nullable TNumber); req "max" (nullable TNumber);
           req "std" (nullable TNumber); req "cv" (nullable TNumber);
           req "missing" TNumber; req "duplicates" TNumber;
           req "outliers" TNumber].
Definition toJSON (p : t) : json :=
  JObj [("rows", JNum (rows p));
        ("date_min", or_null JStr (date_min p));
        ("date_max", or_null JStr (date_max p));
        ("mean", or_null JNum (mean p));
        ("median", or_null JNum (median p));
        ("min", or_null JNum (min p)); ("max", or_null JNum (max p));
        ("std", or_null JNum (std p)); ("cv", or_null JNum (cv p));
        ("missing", JNum (missing p));
        ("duplicates", JNum (duplicates p));
        ("outliers", JNum (outliers p))].
End Profile.

Module Seasonality.
Record t : Type := mk {
  weekly_strength : string; weekend_delta_pct : option Q; acf7 : option Q
}.
Definition type : ty :=
  TObject [req "weekly_strength" TString;
           req "weekend_delta_pct" (nullable TNumber);
           req "acf7" (nullable TNumber)].
Definition toJSON (s : t) : json :=
  JObj [("weekly_strength", JStr (weekly_strength s));
        ("weekend_delta_pct", or_null JNum (weekend_delta_pct s));
        ("acf7", or_null JNum (acf7 s))].
End Seasonality.

Module Changepoint.
Record t : Type := mk { date : string; delta_slope : Q }.
Definition type : ty :=
  TObject [req "date" TString; req "delta_slope" TNumber].
Definition toJSON (c : t) : json :=
  JObj [("date", JStr (date c)); ("delta_slope", JNum (delta_slope c))].
End Changepoint.

Module Trend.
Record t : Type := mk {
  slope_30d : option Q; delta_3mo_pct : option Q;
  changepoints : option (list Changepoint.t)
}.
Definition type : ty :=
  TObject [req "slope_30d" (nullable TNumber);
           req "delta_3mo_pct" (nullable TNumber);
           opt "changepoints" (TArray Changepoint.type)].
Definition toJSON (x : t) : json :=
  JObj ([("slope_30d", or_null JNum (slope_30d x));
         ("delta_3mo_pct", or_null JNum (delta_3mo_pct x))]
        ++ prop_opt "changepoints" (arr Changepoint.toJSON)
                    (changepoints x)).
End Trend.

Module ForecastSummary.
Record t : Type := mk {
  p50_5 : option Q; lo_5 : option Q; up_5 : option Q;
  p50_30 : option Q; lo_30 : option Q; up_30 : option Q;
  delta_30_pct : option Q; band_ratio : option Q; confidence : string
}.
Definition type : ty :=
  TObject [req "p50_5" (nullable TNumber); req "lo_5" (nullable TNumber);
           req "up_5" (nullable TNumber);
           req "p50_30" (nullable TNumber); req "lo_30" (nullable TNumber);
           req "up_30" (nullable TNumber);
           req "delta_30_pct" (nullable TNumber);
           req "band_ratio" (nullable TNumber);
           req "confidence" TString].
Definition toJSON (s : t) : json :=
  JObj [("p50_5", or_null JNum (p50_5 s)); ("lo_5", or_null JNum (lo_5 s));
        ("up_5", or_null JNum (up_5 s));
        ("p50_30", or_null JNum (p50_30 s));
        ("lo_30", or_null JNum (lo_30 s));
        ("up_30", or_null JNum (up_30 s));
        ("delta_30_pct", or_null JNum (delta_30_pct s));
        ("band_ratio", or_null JNum (band_ratio s));
        ("confidence", JStr (confidence s))].
End ForecastSummary.

Module Explanations.
Record t : Type := mk { business : string; technical : string }.
Definition type : ty :=
  TObject [req "business" TString; req "technical" TString].
Definition toJSON (e : t) : json :=
  JObj [("business", JStr (business e)); ("technical", JStr (technical e))].
End Explanations.

(** The element type of [narrativeScript]. *)
Module NarrativeBeat.
Record t : Type := mk {
  id : string; text : string; highlight : list string; waitMs : Q
}.
Definition type : ty :=
  TObject [req "id" TString; req "text" TString;
           req "highlight" (TArray TString); req "waitMs" TNumber].
Definition toJSON (b : t) : json :=
  JObj [("id", JStr (id b)); ("text", JStr (text b));
        ("highlight", arr JStr (highlight b)); ("waitMs", JNum (waitMs b))].
End NarrativeBeat.

Module ForecastResponse.
Record t : Type := mk {
  history : list HistoryPoint.t;
  forecast : list ForecastPoint.t;
  summaryText : string;
  warnings : list string;
  diagnostics : option Diagnostics.t;
  profile : option Profile.t;
  seasonality : option Seasonality.t;
  trend : option Trend.t;
  forecast_summary : option ForecastSummary.t;
  explanations : option Explanations.t;
  narrativeScript : option (list NarrativeBeat.t);
  targets : option (list (string * list string))
}.
Definition type : ty :=
  TObject [req "history" (TArray HistoryPoint.type);
           req "forecast" (TArray ForecastPoint.type);
           req "summaryText" TString;
           req "warnings" (TArray TString);
           opt "diagnostics" Diagnostics.type;
           opt "profile" Profile.type;
           opt "seasonality" Seasonality.type;
           opt "trend" Trend.type;
           opt "forecast_summary" ForecastSummary.type;
           opt "explanations" Explanations.type;
           opt "narrativeScript" (TArray NarrativeBeat.type);
           opt "targets" (TDict (TArray TString))].
Definition dict (d : list (string * list string)) : json :=
  JObj (map (fun kv => (fst kv, arr JStr (snd kv))) d).
Definition toJSON (r : t) : json :=
  JObj ([("history", arr HistoryPoint.toJSON (history r));
         ("forecast", arr ForecastPoint.toJSON (forecast r));
         ("summaryText", JStr (summaryText r));
         ("warnings", arr JStr (warnings r))]
        ++ prop_opt "diagnostics" Diagnostics.toJSON (diagnostics r)
        ++ prop_opt "profile" Profile.toJSON (profile r)
        ++ prop_opt "seasonality" Seasonality.toJSON (seasonality r)
        ++ prop_opt "trend" Trend.toJSON (trend r)
        ++ prop_opt "forecast_summary" ForecastSummary.toJSON
                    (forecast_summary r)
        ++ prop_opt "explanations" Explanations.toJSON (explanations r)
        ++ prop_opt "narrativeScript" (arr NarrativeBeat.toJSON)
                    (narrativeScript r)
        ++ prop_opt "targets" dict (targets r)).

(** Every section the response can carry is there. *)
Definition complete (r : t) : bool :=
  match diagnostics r, profile r, seasonality r, trend r,
        forecast_summary r, explanations r, narrativeScript r with
  | Some _, Some _, Some _, Some _, Some _, Some _, Some _ => true
  | _, _, _, _, _, _, _ => false
  end.
End ForecastResponse.

Module PreviewResponse.
Inductive cell : Type :=
| CStr (s : string)
| CNum (q : Q)
| CNull.
Record meta_t : Type := mkMeta { rows : Q; encoding : option string }.
Record t : Type := mk {
  columns : list string;
  headRows : list (list cell);
  meta : option meta_t
}.
Definition type : ty :=
  TObject [req "columns" (TArray TString);
           req "headRows"
               (TArray (TArray (TUnion TString (TUnion TNumber TNull))));
           opt "meta" (TObject [req "rows" TNumber;
                                opt "encoding" TString])].
End PreviewResponse.

(** ** [App.tsx]: the state of [App] and its event handlers *)

Module App.

Definition steps : list string :=
  ["① データ読み込み"; "② データ性質の選択"; "③ 分析手法の選択";
   "④ データ列の設定"; "⑤ 実行"].

(** A chosen [File]; only its name is looked at. *)
Record File : Type := mkFile { name : string }.

(** The [useState] cells of [App], with their initial values in [init]. *)
Record State : Type := mkState {
  tab : Z;
  activeStep : Z;
  file : option File;
  preview : option PreviewResponse.t;
  dateCol : string;
  valueCol : string;
  horizon : Q;
  busy : bool;
  result : option ForecastResponse.t;
  reportMode : bool;
  currentScript : Z;
  highlightedMetrics : list string;
  summaryModalOpen : bool
}.

Definition init : State :=
  {| tab := 0; activeStep := 0; file := None; preview := None;
     dateCol := ""; valueCol := ""; horizon := 30%Q; busy := false;
     result := None; reportMode := false; currentScript := 0;
     highlightedMetrics := []; summaryModalOpen := false |}.

Definition setTab (v : Z) (s : State) : State :=
  mkState v (activeStep s) (file s) (preview s) (dateCol s) (valueCol s)
          (horizon s) (busy s) (result s) (reportMode s) (currentScript s)
          (highlightedMetrics s) (summaryModalOpen s).
Definition setActiveStep (v : Z) (s : State) : State :=
  mkState (tab s) v (file s) (preview s) (dateCol s) (valueCol s)
          (horizon s) (busy s) (result s) (reportMode s) (currentScript s)
          (highlightedMetrics s) (summaryModalOpen s).
Definition setFile (v : option File) (s : State) : State :=
  mkState (tab s) (activeStep s) v (preview s) (dateCol s) (valueCol s)
          (horizon s) (busy s) (result s) (reportMode s) (currentScript s)
          (highlightedMetrics s) (summaryModalOpen s).
Definition setPreview (v : option PreviewResponse.t) (s : State) : State :=
  mkState (tab s) (activeStep s) (file s) v (dateCol s) (valueCol s)
          (horizon s) (busy s) (result s) (reportMode s) (currentScript s)
          (highlightedMetrics s) (summaryModalOpen s).
Definition setDateCol (v : string) (s : State) : State :=
  mkState (tab s) (activeStep s) (file s) (preview s) v (valueCol s)
          (horizon s) (busy s) (result s) (reportMode s) (currentScript s)
          (highlightedMetrics s) (summaryModalOpen s).
Definition setValueCol (v : string) (s : State) : State :=
  mkState (tab s) (activeStep s) (file s) (preview s) (dateCol s) v
          (horizon s) (busy s) (result s) (reportMode s) (currentScript s)
          (highlightedMetrics s) (summaryModalOpen s).
Definition setHorizon (v : Q) (s : State) : State :=
  mkState (tab s) (activeStep s) (file s) (preview s) (dateCol s) (valueCol s)
          v (busy s) (result s) (reportMode s) (currentScript s)
          (highlightedMetrics s) (summaryModalOpen s).
Definition setBusy (v : bool) (s : State) : State :=
  mkState (tab s) (activeStep s) (file s) (preview s) (dateCol s) (valueCol s)
          (horizon s) v (result s) (reportMode s) (currentScript s)
          (highlightedMetrics s) (summaryModalOpen s).
Definition setResult (v : option ForecastResponse.t) (s : State) : State :=
  mkState (tab s) (activeStep s) (file s) (preview s) (dateCol s) (valueCol s)
          (horizon s) (busy s) v (reportMode s) (currentScript s)
          (highlightedMetrics s) (summaryModalOpen s).
Definition setReportMode (v : bool) (s : State) : State :=
  mkState (tab s) (activeStep s) (file s) (preview s) (dateCol s) (valueCol s)
          (horizon s) (busy s) (result s) v (currentScript s)
          (highlightedMetrics s) (summaryModalOpen s).
Definition setCurrentScript (v : Z) (s : State) : State :=
  mkState (tab s) (activeStep s) (file s) (preview s) (dateCol s) (valueCol s)
          (horizon s) (busy s) (result s) (reportMode s) v
          (highlightedMetrics s) (summaryModalOpen s).
Definition setHighlightedMetrics (v : list string) (s : State) : State :=
  mkState (tab s) (activeStep s) (file s) (preview s) (dateCol s) (valueCol s)
          (horizon s) (busy s) (result s) (reportMode s) (currentScript s)
          v (summaryModalOpen s).
Definition setSummaryModalOpen (v : bool) (s : State) : State :=
  mkState (tab s) (activeStep s) (file s) (preview s) (dateCol s) (valueCol s)
          (horizon s) (busy s) (result s) (reportMode s) (currentScript s)
          (highlightedMetrics s) v.

(** *** [onUpload]: the column auto-pick (lines 52-61) *)

(** [/date|日時|日付|time|timestamp/i] *)
Definition dateRe : Js.RegExp :=
  Js.mkRegExp ["date"; "日時"; "日付"; "time"; "timestamp"] true.

(** [/close|終|value|price|y/i] *)
Definition valueRe : Js.RegExp :=
  Js.mkRegExp ["close"; "終"; "value"; "price"; "y"] true.

(** [const d = json.columns.find(c => dateRe.test(c)) || json.columns[0]] *)
Definition pickDate (columns : list string) : option string :=
  Js.or (find (Js.test dateRe) columns) (Js.index columns 0).

(** [const v = json.columns.find(c => valueRe.test(c)) || json.columns[1]
               || json.columns[0]] *)
Definition pickValue (columns : list string) : option string :=
  Js.or (Js.or (find (Js.test valueRe) columns) (Js.index columns 1))
        (Js.index columns 0).

(** What [fetch('/api/preview')] comes to: it throws (also when the body is
    not JSON), or it answers with a status and a decoded body. *)
Inductive PreviewOutcome : Type :=
| PreviewThrows
| PreviewReply (ok : bool) (body : PreviewResponse.t).

(** The part of [onUpload] after [await fetch]. *)
Definition onUpload_backend (o : PreviewOutcome) (s : State) : State :=
  match o with
  | PreviewReply true body =>
      let d := pickDate (PreviewResponse.columns body) in
      let v := pickValue (PreviewResponse.columns body) in
      setValueCol (Js.or_empty v)
        (setDateCol (Js.or_empty d) (setPreview (Some body) s))
  | PreviewReply false _ => s
  | PreviewThrows => s
  end.

(** *** The wizard (lines 65-74 and 263-266) *)

Definition canNext (s : State) : bool :=
  match activeStep s with
  | 0 => match file s with Some _ => true | None => false end
  | 1 => true
  | 2 => true
  | 3 => (Js.nonempty (dateCol s) && Js.nonempty (valueCol s))%bool
  | 4 => true
  | _ => false
  end.

(** [setActiveStep(s => Math.max(0, s-1))] *)
Definition back (s : State) : State :=
  setActiveStep (Z.max 0 (activeStep s - 1)) s.

(** [setActiveStep(s => Math.min(4, s+1))] *)
Definition next (s : State) : State :=
  setActiveStep (Z.min 4 (activeStep s + 1)) s.

(** *** [runForecast] (lines 76-94) *)

(** What [fetch('/api/forecast')] followed by [r.json() as ForecastResponse]
    comes to: one of the two throws, or a body is decoded and taken to be a
    [ForecastResponse]; the status of the reply is not looked at. *)
Inductive ApiOutcome : Type :=
| ApiThrows
| ApiReply (body : ForecastResponse.t).

(** The object literal of the [catch] branch. *)
Definition fallback : ForecastResponse.t :=
  ForecastResponse.mk [] [] "エラーが発生しました。"
    ["API呼び出しに失敗しました。"]
    None None None None None None None None.

Definition ready (s : State) : bool :=
  (match file s with Some _ => true | None => false end
   && Js.nonempty (dateCol s) && Js.nonempty (valueCol s))%bool.

Definition runForecast (o : ApiOutcome) (s : State) : State :=
  if negb (ready s) then s
  else
    let s1 := setTab 1 (setBusy true s) in
    let s2 := match o with
              | ApiReply body => setResult (Some body) s1
              | ApiThrows => setResult (Some fallback) s1
              end in
    setBusy false s2.

(** *** Report mode and the narrative playback (lines 125-146, 402-493) *)

(** [result.narrativeScript] *)
Definition script (s : State) : option (list NarrativeBeat.t) :=
  match result s with
  | Some r => ForecastResponse.narrativeScript r
  | None => None
  end.

(** [result.narrativeScript?.[0]] *)
Definition firstScript (s : State) : option NarrativeBeat.t :=
  match script s with
  | Some beats => Js.index beats 0
  | None => None
  end.

(** The handler of the report mode button. *)
Definition toggleReportMode (s : State) : State :=
  let s1 := setReportMode (negb (reportMode s)) s in
  if negb (reportMode s) then
    let s2 := setCurrentScript 0 s1 in
    match firstScript s with
    | Some b => setHighlightedMetrics (NarrativeBeat.highlight b) s2
    | None => s2
    end
  else setHighlightedMetrics [] s1.

(** The handler of the close button of the narrative panel. *)
Definition closeReport (s : State) : State :=
  setHighlightedMetrics [] (setReportMode false s).

(** The handler of 次へ in the narrative panel. *)
Definition nextBeat (s : State) : State :=
  match script s with
  | Some beats =>
      if currentScript s <? Z.of_nat (List.length beats) - 1 then
        let s1 := setCurrentScript (currentScript s + 1) s in
        match Js.index beats (currentScript s + 1) with
        | Some b => setHighlightedMetrics (NarrativeBeat.highlight b) s1
        | None => s1
        end
      else setHighlightedMetrics [] s
  | None => s
  end.

(** The handler of 最初へ (lines 476-489). *)
Definition replay (s : State) : State :=
  let s1 := setCurrentScript 0 s in
  match firstScript s with
  | Some b => setHighlightedMetrics (NarrativeBeat.highlight b) s1
  | None => s1
  end.

(** [result.narrativeScript[currentScript]?.text || ''] *)
Definition shownText (s : State) : string :=
  match script s with
  | Some beats =>
      match Js.index beats (currentScript s) with
      | Some b => NarrativeBeat.text b
      | None => ""
      end
  | None => ""
  end.

(** *** Events: what the user or the network can do to the state *)

Inductive Event : Type :=
| ChangeTab (v : Z)
| ChooseFile (f : File)
| LocalPreview (p : PreviewResponse.t)
| BackendPreview (o : PreviewOutcome)
| ClickTimeSeries
| ClickMethod
| EditDateCol (v : string)
| EditValueCol (v : string)
| EditHorizon (v : Q)
| ClickBack
| ClickNext
| ClickRun (o : ApiOutcome)
| OpenSummary
| CloseSummary
| ClickReportMode
| ClickCloseReport
| ClickNextBeat
| ClickReplay.

Definition hasScript (s : State) : bool :=
  match script s with Some _ => true | None => false end.

Definition scriptLength (s : State) : Z :=
  match script s with Some beats => Z.of_nat (List.length beats) | None => 0 end.

(** The control behind an event is rendered and not disabled. *)
Definition enabled (s : State) (e : Event) : bool :=
  match e with
  | ChangeTab v => ((v =? 0) || (v =? 1))%bool
  | ChooseFile _ => ((tab s =? 0) && (activeStep s =? 0))%bool
  | LocalPreview _ => true
  | BackendPreview _ => true
  | ClickTimeSeries => ((tab s =? 0) && (activeStep s =? 1))%bool
  | ClickMethod => ((tab s =? 0) && (activeStep s =? 2))%bool
  | EditDateCol _ | EditValueCol _ | EditHorizon _ =>
      ((tab s =? 0) && (activeStep s =? 3))%bool
  | ClickBack => ((tab s =? 0) && negb (activeStep s =? 0))%bool
  | ClickNext => ((tab s =? 0) && canNext s)%bool
  | ClickRun _ =>
      ((tab s =? 0) && (activeStep s =? 4) && ready s && negb (busy s))%bool
  | OpenSummary =>
      ((tab s =? 1) && match result s with Some _ => true | None => false end)%bool
  | CloseSummary => (tab s =? 1)
  | ClickReportMode => ((tab s =? 1) && hasScript s)%bool
  | ClickCloseReport | ClickReplay => (reportMode s && hasScript s)%bool
  | ClickNextBeat =>
      (reportMode s && hasScript s
       && negb (scriptLength s <=? currentScript s))%bool
  end.

Definition handle (e : Event) (s : State) : State :=
  match e with
  | ChangeTab v => setTab v s
  | ChooseFile f => setFile (Some f) s
  | LocalPreview p => setPreview (Some p) s
  | BackendPreview o => onUpload_backend o s
  | ClickTimeSeries => setActiveStep 2 s
  | ClickMethod => setActiveStep 3 s
  | EditDateCol v => setDateCol v s
  | EditValueCol v => setValueCol v s
  | EditHorizon v => setHorizon v s
  | ClickBack => back s
  | ClickNext => next s
  | ClickRun o => runForecast o s
  | OpenSummary => setSummaryModalOpen true s
  | CloseSummary => setSummaryModalOpen false s
  | ClickReportMode => toggleReportMode s
  | ClickCloseReport => closeReport s
  | ClickNextBeat => nextBeat s
  | ClickReplay => replay s
  end.

Definition step (s : State) (e : Event) : State :=
  if enabled s e then handle e s else s.

Definition run (s : State) (es : list Event) : State :=
  fold_left step es s.

(** *** The metric tiles of the result tab (lines 295-361) *)

(** A tile: its [data-metric] key, the section of the response it is rendered
    under, and the field of that section it shows. *)
Record Tile : Type := mkTile {
  metric : string;
  section : string;
  field : string
}.


(** [highlightedMetrics.includes(key)] *)
Definition highlighted (s : State) (t : Tile) : bool :=
  existsb (String.eqb (metric t)) (highlightedMetrics s).


End App.

(** ** The Forecaster of the backend

    The backend that answers [/api/forecast] is not among the sources; this
    module follows the specification's description of its Forecaster
    (sections 3, 4.4, 7 and 8). Calendar dates are day numbers, so the day
    after [d] is [d + 1]. *)

Module Forecaster.

(** Modelled from the spec: the error kinds of section 7, and the validation
    error that section 8 asks for when [horizon_days = 0]. *)
Inductive ErrorKind : Type :=
| ParseError
| ColumnNotFoundError
| EmptySeriesError
| InsufficientDataError
| ForecastLibraryError
| ValidationError.

(** Modelled from the spec: a component returns its output or fails with
    one error kind (section 7). *)
Inductive Result (A : Type) : Type :=
| Ok (a : A)
| Err (e : ErrorKind).
Arguments Ok {A} a.
Arguments Err {A} e.

(** Modelled from the spec: Observation, (timestamp, value), of section 3. *)
Record Observation : Type := mkObservation { timestamp : Z; value : Q }.

(** Modelled from the spec: Series, an ordered sequence of observations. *)
Definition Series : Type := list Observation.

(** Modelled from the spec: ForecastPoint, (date, point_estimate,
    lower_bound, upper_bound), of section 3. *)
Record Point : Type := mkPoint {
  date : Z; point_estimate : Q; lower_bound : Q; upper_bound : Q
}.

(** Modelled from the spec: the minimum number of points of section 4.4
    ("typically 2"). *)
Definition min_points : nat := 2.

(** Modelled from the spec: "the last historical date" of section 4.4, the
    date of the last observation of the (date-sorted) series. *)
Definition last_date (s : Series) : Z :=
  timestamp (last s (mkObservation 0 0%Q)).

(** Modelled from the spec: "contiguous calendar days following the last
    historical date", [n] of them. *)
Definition future_dates (last_day : Z) (n : nat) : list Z :=
  map (fun i => last_day + Z.of_nat i) (seq 1 n).

Section WithLibrary.

(** The external forecasting library: fitting a series may fail; a fitted
    model predicts a point estimate with its band at a date. *)
Variable Model : Type.
Variable fit : Series -> option Model.
Variable predict : Model -> Z -> Q * (Q * Q).

(** Modelled from the spec: the forecast point of a date, as the fitted
    model predicts it. *)
Definition point_at (m : Model) (d : Z) : Point :=
  let p := predict m d in
  mkPoint d (fst p) (fst (snd p)) (snd (snd p)).

(** Modelled from the spec: the Forecaster of section 4.4, which is in the
    backend and not among the sources. Input: a series and [horizon_days],
    a positive integer ([horizon_days = 0] fails with a validation error,
    section 8); fails with [InsufficientDataError] under [min_points]
    points; a failure of the library is a [ForecastLibraryError]; the
    output is one point per day of the horizon. *)
Definition forecaster (s : Series) (horizon_days : Z) : Result (list Point) :=
  if horizon_days <=? 0 then Err ValidationError
  else if Nat.ltb (List.length s) min_points then Err InsufficientDataError
  else match fit s with
       | None => Err ForecastLibraryError
       | Some m =>
           Ok (map (point_at m)
                   (future_dates (last_date s) (Z.to_nat horizon_days)))
       end.

End WithLibrary.

(** A library to run the Forecaster with: the last value carried forward,
    with a band of one unit either way. *)
Definition naive_fit (s : Series) : option Q :=
  match s with
  | [] => None
  | _ => Some (value (last s (mkObservation 0 0%Q)))
  end.

Definition naive_predict (level : Q) (_ : Z) : Q * (Q * Q) :=
  (level, (level - 1, level + 1))%Q.

Definition two_days : Series :=
  [mkObservation 19000 (10#1); mkObservation 19001 (12#1)].

End Forecaster.

(** ** Sample values *)

Module Sample.

Definition beats : list NarrativeBeat.t :=
  [NarrativeBeat.mk "intro" "過去データの平均は 100.0 です。"
     ["profile.mean"; "profile.median"] (1500#1);
   NarrativeBeat.mk "forecast" "30日後は 3.2% の上昇を見込みます。"
     ["forecast.p50_30"; "forecast.delta_30_pct"] (2000#1);
   NarrativeBeat.mk "confidence" "信頼度は 中 です。"
     ["forecast.confidence"] (1500#1)].

Definition response : ForecastResponse.t :=
  ForecastResponse.mk
    [HistoryPoint.mk "2024-01-01" (100#1); HistoryPoint.mk "2024-01-02" (101#1)]
    [ForecastPoint.mk "2024-01-03" (102#1) (99#1) (105#1)]
    "summary" []
    (Some (Diagnostics.mk 0 0 0))
    (Some (Profile.mk (2#1) (Some "2024-01-01") (Some "2024-01-02")
             (Some (201#2)) (Some (201#2)) (Some (100#1)) (Some (101#1))
             (Some (1#2)) (Some (1#201)) 0 0 0))
    (Some (Seasonality.mk "低" None None))
    (Some (Trend.mk None None (Some [])))
    (Some (ForecastSummary.mk None None None (Some (102#1)) (Some (99#1))
             (Some (105#1)) (Some (1#1)) (Some (6#102)) "中"))
    (Some (Explanations.mk "business" "technical"))
    (Some beats)
    None.

Definition file : App.File := App.mkFile "toyota_7203.csv".

Definition previewBody : PreviewResponse.t :=
  PreviewResponse.mk ["日付"; "始値"; "終値"] [] None.

(** Upload a file and walk the wizard to its last step. *)
Definition setup : list App.Event :=
  [App.ChooseFile file;
   App.BackendPreview (App.PreviewReply true previewBody);
   App.ClickNext; App.ClickTimeSeries; App.ClickMethod; App.ClickNext;
   App.ClickNext; App.ClickBack; App.ClickNext].

(** A whole session: after [setup], run the forecast, switch report mode on
    and step through two beats. *)
Definition session : list App.Event :=
  (setup ++ [App.ClickRun (App.ApiReply response);
             App.ClickReportMode; App.ClickNextBeat; App.ClickNextBeat])%list.

End Sample.

(** ** [App.tsx]: what is rendered from the state *)

Module View.

(** The members that every plain object inherits from [Object.prototype];
    reading one of these names on a row that has no field of that name gives
    the inherited member, not [undefined]. *)
Definition objectPrototype : list string :=
  ["constructor"; "hasOwnProperty"; "isPrototypeOf"; "propertyIsEnumerable";
   "toLocaleString"; "toString"; "valueOf"; "__proto__";
   "__defineGetter__"; "__defineSetter__"; "__lookupGetter__";
   "__lookupSetter__"].

Definition inherited (name : string) : bool :=
  existsb (String.eqb name) objectPrototype.

(** What a property read [r[c]] gives on a parsed row [r], an object given
    by its own fields: the row's own value, an inherited member, or
    [undefined]. *)
Inductive value : Type :=
| Own (v : PreviewResponse.cell)
| Inherited (name : string)
| Undefined.

Definition get (r : list (string * PreviewResponse.cell)) (c : string)
  : value :=
  match lookup c r with
  | Some v => Own v
  | None => if inherited c then Inherited c else Undefined
  end.

(** A cell of the local preview: a cell value, or a member of
    [Object.prototype] that the read picked up. *)
Inductive shown : Type :=
| Cell (v : PreviewResponse.cell)
| Member (name : string).

(** [x ?? null]: only [undefined] and [null] become [null]. *)
Definition orNull (x : value) : shown :=
  match x with
  | Own v => Cell v
  | Inherited name => Member name
  | Undefined => Cell PreviewResponse.CNull
  end.

(** The object passed to [setPreview] by the local preview; its [meta] is
    [undefined]. The rows are [any[][]] in the source. *)
Record LocalPreview : Type := mkLocalPreview {
  columns : list string;
  headRows : list (list shown)
}.

(** The [complete] callback of [Papa.parse] in [onUpload] (lines 43-47):
    [columns = res.meta.fields || []] and
    [rows = res.data.map(r => columns.map(c => r[c] ?? null))]. *)
Definition localPreview (fields : option (list string))
                        (data : list (list (string * PreviewResponse.cell)))
  : LocalPreview :=
  let columns := match fields with Some f => f | None => [] end in
  let rows := map (fun r => map (fun c => orNull (get r c)) columns) data in
  mkLocalPreview columns rows.

(** [result?.explanations?.business] *)
Definition business (result : option ForecastResponse.t) : option string :=
  match result with
  | Some r => option_map Explanations.business (ForecastResponse.explanations r)
  | None => None
  end.

(** [result?.explanations?.technical] *)
Definition technical (result : option ForecastResponse.t) : option string :=
  match result with
  | Some r => option_map Explanations.technical (ForecastResponse.explanations r)
  | None => None
  end.




(** The colour of a percent change (lines 332 and 351):
    [d && d > 0 ? 'success.main' : 'error.main']; [null] and [0] are falsy. *)
Definition deltaColor (d : option Q) : string :=
  match d with
  | Some q =>
      if (negb (Qeq_bool q 0) && negb (Qle_bool q 0))%bool
      then "success.main" else "error.main"
  | None => "error.main"
  end.

End View.

(** ** [runForecast] on the wire (lines 76-94)

    The handler awaits the reply, and the cast [as ForecastResponse] checks
    nothing: here the handler is in the two parts that the [await] separates,
    over the cells it reads or writes, and [result] holds whatever JSON value
    was passed to [setResult]. *)

Module Wire.

Record Cells : Type := mkCells {
  file : option App.File;
  dateCol : string;
  valueCol : string;
  tab : Z;
  busy : bool;
  result : option json
}.

(** What [await fetch(...)] followed by [await r.json()] comes to: [fetch]
    rejects; the reply has status flag [ok] and a body that is not JSON, so
    that [r.json()] rejects; or the body is decoded. [runForecast] never
    reads [ok]. *)
Inductive Reply : Type :=
| FetchThrows
| BodyThrows (ok : bool)
| Decoded (ok : bool) (body : json).

(** [!file || !dateCol || !valueCol] fails. *)
Definition ready (c : Cells) : bool :=
  (match file c with Some _ => true | None => false end
   && Js.nonempty (dateCol c) && Js.nonempty (valueCol c))%bool.

(** Lines 77-79, up to the [await]: the guard, [setBusy(true)], [setTab(1)];
    [None] when the guard returns and no request is made. *)
Definition start (c : Cells) : option Cells :=
  if negb (ready c) then None
  else Some (mkCells (file c) (dateCol c) (valueCol c) 1 true (result c)).

(** What is passed to [setResult]: the decoded body (line 88), or the object
    literal of the [catch] branch (line 90). *)
Definition stored (o : Reply) : json :=
  match o with
  | Decoded _ body => body
  | FetchThrows => ForecastResponse.toJSON App.fallback
  | BodyThrows _ => ForecastResponse.toJSON App.fallback
  end.

(** Lines 87-93, after the [await]: [setResult], then [setBusy(false)] in
    [finally]. *)
Definition settle (o : Reply) (c : Cells) : Cells :=
  mkCells (file c) (dateCol c) (valueCol c) (tab c) false (Some (stored o)).

(** The tabs stay clickable while the request is pending (line 110). *)
Definition changeTab (v : Z) (c : Cells) : Cells :=
  mkCells (file c) (dateCol c) (valueCol c) v (busy c) (result c).

(** A request with nothing happening during the [await]. *)
Definition request (o : Reply) (c : Cells) : option Cells :=
  option_map (settle o) (start c).

(** The cells of a state of [App], the response serialised. *)
Definition of_app (s : App.State) : Cells :=
  mkCells (App.file s) (App.dateCol s) (App.valueCol s) (App.tab s)
          (App.busy s) (option_map ForecastResponse.toJSON (App.result s)).

(** Cells with a file and both columns chosen, before any forecast. *)
Definition idle : Cells :=
  mkCells (Some Sample.file) "日付" "終値" 0 false None.

End Wire.

(** ** Vocabulary of the statements *)

(** The property names of a serialised object. *)
Definition json_keys (v : json) : list string :=
  match v with
  | JObj ps => keys ps
  | _ => []
  end.

Definition mem (k : string) (l : list string) : bool :=
  existsb (String.eqb k) l.

(** Every name of [a] is a name of [b]. *)
Definition subset (a b : list string) : bool :=
  forallb (fun k => mem k b) a.

(** One declared field against the properties of an object. *)
Definition field_ok (ps : list (string * json)) (f : string * (bool * ty))
  : bool :=
  match lookup (fst f) ps with
  | Some x => has_type (snd (snd f)) x
  | None => fst (snd f)
  end.

(** The field names the specification lists for the response (section 6). *)
Definition listed_fields : list string :=
  ["history"; "forecast"; "profile"; "seasonality"; "trend";
   "forecast_summary"; "explanations"; "narrativeScript"; "warnings";
   "diagnostics"].

(** The field names the specification lists for a narrative beat
    (section 3). *)
Definition listed_beat_fields : list string :=
  ["id"; "text"; "highlight"; "wait_ms"].

(** A JSON value is a complete response: it conforms to the declared type
    and has every listed field. *)
Definition complete_json (j : json) : bool :=
  (has_type ForecastResponse.type j
   && forallb (fun k => path_exists j [k]) listed_fields)%bool.

(** The request contract of section 7, as far as the caller's cells show it:
    after the request there is a complete response, or there is none. *)
Definition request_contract (c : Wire.Cells) : Prop :=
  (exists j, Wire.result c = Some j /\ complete_json j = true)
  \/ Wire.result c = None.

Definition in_range (s : App.State) : Prop := 0 <= App.activeStep s <= 4.

Definition chosen (f : option App.File) : bool :=
  match f with Some _ => true | None => false end.

Definition forecast_dates (pts : list Forecaster.Point) : list Z :=
  map Forecaster.date pts.

(** What holds of the narrative in every state a session can reach. *)
Definition quiet_outside_report (s : App.State) : Prop :=
  App.reportMode s = false -> App.highlightedMetrics s = [].


Definition file_behind_wizard (s : App.State) : Prop :=
  1 <= App.activeStep s -> App.file s <> None.

(** [k] clicks on 次へ. *)
Definition nextBeats (k : nat) (s : App.State) : App.State :=
  Nat.iter k App.nextBeat s.

(** The events that start a forecast. *)
Definition is_run (e : App.Event) : bool :=
  match e with
  | App.ClickRun _ => true
  | _ => false
  end.

(** [needle] occurs in [hay]: [hay] is some text, [needle], some text. *)
Definition occurs_in (needle hay : string) : Prop :=
  exists pre post, hay = String.append pre (String.append needle post).

(** * Properties *)

(** ** The wizard *)

Section Wizard.
Import App.

(** Handlers other than the wizard's leave [activeStep] alone. *)
Lemma onUpload_backend_activeStep o s :
  activeStep (onUpload_backend o s) = activeStep s.
Proof. destruct o as [|[|] body]; reflexivity. Qed.

Lemma runForecast_activeStep o s :
  activeStep (runForecast o s) = activeStep s.
Proof.
  unfold runForecast. destruct (negb (ready s)); [reflexivity|].
  destruct o; reflexivity.
Qed.

Lemma toggleReportMode_activeStep s :
  activeStep (toggleReportMode s) = activeStep s.
Proof.
  unfold toggleReportMode.
  destruct (negb (reportMode s)); [destruct (firstScript s)|]; reflexivity.
Qed.

Lemma nextBeat_activeStep s : activeStep (nextBeat s) = activeStep s.
Proof.
  unfold nextBeat. destruct (script s) as [beats|]; [|reflexivity].
  destruct (currentScript s <? Z.of_nat (List.length beats) - 1); [|reflexivity].
  destruct (Js.index beats (currentScript s + 1)); reflexivity.
Qed.

Lemma replay_activeStep s : activeStep (replay s) = activeStep s.
Proof. unfold replay. destruct (firstScript s); reflexivity. Qed.

Lemma handle_in_range e s : in_range s -> in_range (handle e s).
Proof.
  unfold in_range. intros H.
  destruct e; simpl;
    rewrite ?onUpload_backend_activeStep, ?runForecast_activeStep,
            ?toggleReportMode_activeStep, ?nextBeat_activeStep,
            ?replay_activeStep;
    lia.
Qed.

Lemma step_in_range s e : in_range s -> in_range (step s e).
Proof.
  intros H. unfold step. destruct (enabled s e); [|exact H].
  now apply handle_in_range.
Qed.

Lemma run_in_range es : forall s, in_range s -> in_range (run s es).
Proof.
  induction es as [|e es IH]; intros s H; simpl; [exact H|].
  apply IH. now apply step_in_range.
Qed.

(** C9. The wizard step [activeStep] stays in 0..4: from a state in that
    range, no sequence of events (back and next among them) leaves it. Back
    maps the step [s] to [max(0, s-1)] and next to [min(4, s+1)]; next is
    clickable only when [canNext] holds, and a click on it otherwise changes
    nothing; [canNext] at step 0 says that a file is chosen and at step 3
    that the date column and the value column are both chosen, and it holds
    at the steps 1, 2 and 4. *)
Theorem wizard_step_in_range (s : State) (es : list Event)
  (Hs : 0 <= activeStep s <= 4) :
  0 <= activeStep (run s es) <= 4
  /\ 0 <= activeStep (run init es) <= 4
  /\ activeStep (back s) = Z.max 0 (activeStep s - 1)
  /\ activeStep (next s) = Z.min 4 (activeStep s + 1)
  /\ enabled s ClickNext = ((tab s =? 0) && canNext s)%bool
  /\ enabled s ClickBack = ((tab s =? 0) && negb (activeStep s =? 0))%bool
  /\ step s ClickNext = (if enabled s ClickNext then next s else s)
  /\ step s ClickBack = (if enabled s ClickBack then back s else s)
  /\ canNext (setActiveStep 0 s) = chosen (file s)
  /\ canNext (setActiveStep 3 s)
     = (Js.nonempty (dateCol s) && Js.nonempty (valueCol s))%bool
  /\ canNext (setActiveStep 1 s) = true
  /\ canNext (setActiveStep 2 s) = true
  /\ canNext (setActiveStep 4 s) = true.
Proof.
  split; [now apply (run_in_range es s)|].
  split; [apply (run_in_range es init); unfold in_range; simpl; lia|].
  repeat split; reflexivity.
Qed.

Lemma wizard_step_in_range_witness :
  0 <= activeStep (run init Sample.session) <= 4
  /\ 0 <= activeStep (run (run init Sample.session) [ClickNext; ClickNext]) <= 4.
Proof.
  assert (H : 0 <= activeStep (run init Sample.session) <= 4)
    by (vm_compute; split; discriminate).
  split; [exact H|].
  exact (proj1 (wizard_step_in_range (run init Sample.session)
                  [ClickNext; ClickNext] H)).
Defined.

End Wizard.

(** ** [onUpload]: the column auto-pick *)

Section AutoPick.
Import App.

Lemma find_first {A : Type} (f : A -> bool) pre c post :
  f c = true -> (forall x, In x pre -> f x = false) ->
  find f (pre ++ c :: post)%list = Some c.
Proof.
  intros Hc. induction pre as [|x pre IH]; intros Hpre; simpl.
  - now rewrite Hc.
  - rewrite (Hpre x (or_introl eq_refl)). apply IH.
    intros y Hy. apply Hpre. now right.
Qed.

Lemma find_nowhere {A : Type} (f : A -> bool) l :
  (forall x, In x l -> f x = false) -> find f l = None.
Proof.
  induction l as [|x l IH]; intros H; simpl; [reflexivity|].
  rewrite (H x (or_introl eq_refl)). apply IH.
  intros y Hy. apply H. now right.
Qed.

(** Neither expression matches the empty string, so a column found by
    [find] is truthy and [||] keeps it. *)
Lemma matched_truthy re c :
  Js.test re "" = false -> Js.test re c = true -> Js.truthy (Some c) = true.
Proof.
  intros He Hc. destruct c as [|a c]; [congruence|reflexivity].
Qed.

Lemma or_empty_some c : Js.or_empty (Some c) = c.
Proof.
  unfold Js.or_empty, Js.or, Js.truthy.
  destruct (String.eqb c "") eqn:E; simpl; [|reflexivity].
  apply String.eqb_eq in E. now subst.
Qed.

Lemma or_empty_first_match re cols c rest :
  Js.test re "" = false -> find (Js.test re) cols = Some c ->
  Js.or_empty (Js.or (find (Js.test re) cols) rest) = c.
Proof.
  intros He Hf. rewrite Hf.
  apply find_some in Hf. destruct Hf as [_ Hc].
  unfold Js.or. rewrite (matched_truthy re c He Hc). apply or_empty_some.
Qed.

Lemma pickDate_no_match cols :
  find (Js.test dateRe) cols = None ->
  Js.or_empty (pickDate cols) = nth 0 cols "".
Proof.
  intros Hf. unfold pickDate. rewrite Hf.
  destruct cols as [|c0 rest]; [reflexivity|].
  change (Js.or None (Js.index (c0 :: rest) 0)) with (Some c0).
  apply or_empty_some.
Qed.

Lemma pickValue_no_match cols :
  find (Js.test valueRe) cols = None ->
  Js.or_empty (pickValue cols)
  = if Js.nonempty (nth 1 cols "") then nth 1 cols "" else nth 0 cols "".
Proof.
  intros Hf. unfold pickValue. rewrite Hf.
  destruct cols as [|c0 [|c1 rest]]; [reflexivity| |].
  - change (Js.or (Js.or None (Js.index [c0] 1)) (Js.index [c0] 0))
      with (Some c0).
    simpl. apply or_empty_some.
  - change (Js.index (c0 :: c1 :: rest) 1) with (Some c1).
    change (Js.index (c0 :: c1 :: rest) 0) with (Some c0).
    change (nth 1 (c0 :: c1 :: rest) "") with c1.
    change (nth 0 (c0 :: c1 :: rest) "") with c0.
    unfold Js.or at 2. simpl Js.truthy.
    unfold Js.or, Js.truthy, Js.nonempty.
    destruct (String.eqb c1 "") eqn:E; simpl; apply or_empty_some.
Qed.

(** C10. After a successful backend preview, the preview is the reply's
    body; the date column is the first column whose name matches
    [/date|日時|日付|time|timestamp/i], and the first column when none
    matches; the value column is the first column whose name matches
    [/close|終|value|price|y/i], and when none matches the second column,
    and the first one when there is no second column (or its name is the
    empty string, which [||] skips); both are the empty string when the
    preview has no columns. *)
Theorem auto_pick_columns (body : PreviewResponse.t) (s : State) :
  let cols := PreviewResponse.columns body in
  let s' := onUpload_backend (PreviewReply true body) s in
  preview s' = Some body
  /\ (forall pre c post,
        cols = (pre ++ c :: post)%list -> Js.test dateRe c = true ->
        (forall x, In x pre -> Js.test dateRe x = false) ->
        dateCol s' = c)
  /\ ((forall x, In x cols -> Js.test dateRe x = false) ->
      dateCol s' = nth 0 cols "")
  /\ (forall pre c post,
        cols = (pre ++ c :: post)%list -> Js.test valueRe c = true ->
        (forall x, In x pre -> Js.test valueRe x = false) ->
        valueCol s' = c)
  /\ ((forall x, In x cols -> Js.test valueRe x = false) ->
      valueCol s'
      = if Js.nonempty (nth 1 cols "") then nth 1 cols "" else nth 0 cols "")
  /\ (cols = [] -> dateCol s' = "" /\ valueCol s' = "").
Proof.
  intros cols s'. subst s'. simpl. fold cols.
  split; [reflexivity|].
  split.
  { intros pre c post Hcols Hc Hpre. unfold pickDate.
    apply or_empty_first_match; [reflexivity|].
    rewrite Hcols. now apply find_first. }
  split.
  { intros Hnone. apply pickDate_no_match. now apply find_nowhere. }
  split.
  { intros pre c post Hcols Hc Hpre. unfold pickValue.
    assert (Hf : find (Js.test valueRe) cols = Some c)
      by (rewrite Hcols; now apply find_first).
    rewrite Hf. apply find_some in Hf. destruct Hf as [_ Hc'].
    unfold Js.or at 2.
    rewrite (matched_truthy valueRe c eq_refl Hc').
    unfold Js.or. rewrite (matched_truthy valueRe c eq_refl Hc').
    apply or_empty_some. }
  split.
  { intros Hnone. apply pickValue_no_match. now apply find_nowhere. }
  intros Hnil. rewrite Hnil. split; reflexivity.
Qed.

Lemma auto_pick_columns_witness :
  let s' := onUpload_backend (PreviewReply true Sample.previewBody) init in
  dateCol s' = "日付" /\ valueCol s' = "終値".
Proof.
  destruct (auto_pick_columns Sample.previewBody init)
    as (_ & Hd & _ & Hv & _ & _).
  split.
  - apply (Hd [] "日付" ["始値"; "終値"]);
      [reflexivity | reflexivity | intros x []].
  - apply (Hv ["日付"; "始値"] "終値" []); [reflexivity | reflexivity |].
    intros x [Hx | [Hx | []]]; subst x; reflexivity.
Defined.

End AutoPick.

(** ** Report mode and the narrative playback *)

Section Narrative.
Import App.

(** The playback handlers leave the response alone. *)
Lemma replay_result s : result (replay s) = result s.
Proof. unfold replay. destruct (firstScript s); reflexivity. Qed.

Lemma toggleReportMode_result s : result (toggleReportMode s) = result s.
Proof.
  unfold toggleReportMode.
  destruct (negb (reportMode s)); [destruct (firstScript s)|]; reflexivity.
Qed.

(** C6. The narrative can be restarted: whatever the current beat index,
    最初へ sets the current beat to 0 and, the script having a beat 0, the
    highlighted metrics to the highlight of beat 0 (so the panel shows the
    text of beat 0); switching report mode on does the same. *)
Theorem narrative_restart (s : State) :
  currentScript (replay s) = 0
  /\ reportMode (replay s) = reportMode s
  /\ (reportMode s = false ->
      reportMode (toggleReportMode s) = true
      /\ currentScript (toggleReportMode s) = 0)
  /\ (forall b, firstScript s = Some b ->
      highlightedMetrics (replay s) = NarrativeBeat.highlight b
      /\ shownText (replay s) = NarrativeBeat.text b
      /\ (reportMode s = false ->
          highlightedMetrics (toggleReportMode s) = NarrativeBeat.highlight b
          /\ shownText (toggleReportMode s) = NarrativeBeat.text b)).
Proof.
  assert (Hc : currentScript (replay s) = 0)
    by (unfold replay; destruct (firstScript s); reflexivity).
  assert (Hc' : reportMode s = false -> currentScript (toggleReportMode s) = 0)
    by (intros Hoff; unfold toggleReportMode; rewrite Hoff;
        destruct (firstScript s); reflexivity).
  split; [exact Hc|].
  split; [unfold replay; destruct (firstScript s); reflexivity|].
  split.
  { intros Hoff. split; [|exact (Hc' Hoff)].
    unfold toggleReportMode. rewrite Hoff.
    destruct (firstScript s); reflexivity. }
  intros b Hb.
  assert (Hshown : forall s', result s' = result s -> currentScript s' = 0 ->
                              shownText s' = NarrativeBeat.text b).
  { intros s' Hr Hz. unfold shownText, script. rewrite Hr, Hz.
    unfold firstScript, script in Hb.
    destruct (result s) as [r|]; [|discriminate].
    destruct (ForecastResponse.narrativeScript r) as [beats|]; [|discriminate].
    now rewrite Hb. }
  split; [unfold replay; rewrite Hb; reflexivity|].
  split; [apply Hshown; [apply replay_result | exact Hc]|].
  intros Hoff.
  split; [unfold toggleReportMode; rewrite Hoff, Hb; reflexivity|].
  apply Hshown; [apply toggleReportMode_result | exact (Hc' Hoff)].
Qed.

Lemma narrative_restart_witness :
  let s := run init Sample.session in
  currentScript s = 2
  /\ currentScript (replay s) = 0
  /\ highlightedMetrics (replay s) = ["profile.mean"; "profile.median"]
  /\ reportMode (closeReport s) = false
  /\ currentScript (toggleReportMode (closeReport s)) = 0
  /\ highlightedMetrics (toggleReportMode (closeReport s))
     = ["profile.mean"; "profile.median"].
Proof.
  intros s.
  assert (Hb : firstScript s
               = Some (NarrativeBeat.mk "intro" "過去データの平均は 100.0 です。"
                         ["profile.mean"; "profile.median"] (1500#1)))
    by (vm_compute; reflexivity).
  assert (Hb' : firstScript (closeReport s)
               = Some (NarrativeBeat.mk "intro" "過去データの平均は 100.0 です。"
                         ["profile.mean"; "profile.median"] (1500#1)))
    by (vm_compute; reflexivity).
  assert (Hoff : reportMode (closeReport s) = false) by reflexivity.
  destruct (narrative_restart s) as (Hc & _ & _ & Hfirst).
  destruct (Hfirst _ Hb) as (Hh & _ & _).
  destruct (narrative_restart (closeReport s)) as (_ & _ & Hon & Hfirst').
  destruct (Hfirst' _ Hb') as (_ & _ & Hh').
  split; [vm_compute; reflexivity|].
  split; [exact Hc|]. split; [exact Hh|]. split; [exact Hoff|].
  split; [exact (proj2 (Hon Hoff)) | exact (proj1 (Hh' Hoff))].
Defined.

End Narrative.

(** ** [types.ts]: serialised values conform to their types *)

Section Conformance.

Lemma has_type_object fs ps :
  has_type (TObject fs) (JObj ps) = forallb (field_ok ps) fs.
Proof.
  simpl. induction fs as [|[name [o t]] fs IH]; [reflexivity|].
  simpl. unfold field_ok at 1. simpl. now rewrite IH.
Qed.

Lemma has_type_arr {A : Type} (t : ty) (f : A -> json) (l : list A) :
  (forall x, has_type t (f x) = true) -> has_type (TArray t) (arr f l) = true.
Proof.
  intros H. simpl. induction l as [|x l IH]; [reflexivity|].
  simpl. now rewrite H, IH.
Qed.

Lemma strings_ok l : has_type (TArray TString) (arr JStr l) = true.
Proof. now apply has_type_arr. Qed.

Lemma nullable_num_ok o : has_type (nullable TNumber) (or_null JNum o) = true.
Proof. now destruct o. Qed.

Lemma nullable_str_ok o : has_type (nullable TString) (or_null JStr o) = true.
Proof. now destruct o. Qed.

Lemma history_point_ok p :
  has_type HistoryPoint.type (HistoryPoint.toJSON p) = true.
Proof. reflexivity. Qed.

Lemma forecast_point_ok p :
  has_type ForecastPoint.type (ForecastPoint.toJSON p) = true.
Proof. reflexivity. Qed.

Lemma diagnostics_ok d :
  has_type Diagnostics.type (Diagnostics.toJSON d) = true.
Proof. reflexivity. Qed.

Lemma explanations_ok e :
  has_type Explanations.type (Explanations.toJSON e) = true.
Proof. reflexivity. Qed.

Lemma changepoint_ok c :
  has_type Changepoint.type (Changepoint.toJSON c) = true.
Proof. reflexivity. Qed.

Lemma profile_ok p : has_type Profile.type (Profile.toJSON p) = true.
Proof.
  destruct p as [? [?|] [?|] [?|] [?|] [?|] [?|] [?|] [?|] ? ? ?];
    reflexivity.
Qed.

Lemma seasonality_ok s :
  has_type Seasonality.type (Seasonality.toJSON s) = true.
Proof. destruct s as [? [?|] [?|]]; reflexivity. Qed.

Lemma forecast_summary_ok s :
  has_type ForecastSummary.type (ForecastSummary.toJSON s) = true.
Proof.
  destruct s as [[?|] [?|] [?|] [?|] [?|] [?|] [?|] [?|] ?]; reflexivity.
Qed.

Lemma changepoints_ok l :
  has_type (TArray Changepoint.type) (arr Changepoint.toJSON l) = true.
Proof. apply has_type_arr, changepoint_ok. Qed.

Lemma trend_ok x : has_type Trend.type (Trend.toJSON x) = true.
Proof.
  destruct x as [s d [l|]]; unfold Trend.type, Trend.toJSON;
    rewrite has_type_object;
    cbn [forallb field_ok lookup fst snd app prop_opt req opt
         Trend.slope_30d Trend.delta_3mo_pct Trend.changepoints
         String.eqb Ascii.eqb Bool.eqb required optional];
    rewrite ?nullable_num_ok, ?changepoints_ok; reflexivity.
Qed.

Lemma narrative_beat_ok b :
  has_type NarrativeBeat.type (NarrativeBeat.toJSON b) = true.
Proof.
  unfold NarrativeBeat.type, NarrativeBeat.toJSON.
  rewrite has_type_object.
  cbn [forallb field_ok lookup fst snd req
       String.eqb Ascii.eqb Bool.eqb required].
  rewrite strings_ok. reflexivity.
Qed.

Lemma dict_ok d :
  has_type (TDict (TArray TString)) (ForecastResponse.dict d) = true.
Proof.
  unfold ForecastResponse.dict.
  change (forallb (fun p => has_type (TArray TString) (snd p))
                  (map (fun kv => (fst kv, arr JStr (snd kv))) d) = true).
  induction d as [|kv d IH]; [reflexivity|].
  cbn [map forallb snd]. now rewrite strings_ok, IH.
Qed.

Lemma forecast_response_ok r :
  has_type ForecastResponse.type (ForecastResponse.toJSON r) = true.
Proof.
  destruct r as [h f s w [d|] [p|] [se|] [tr|] [fs|] [ex|] [ns|] [tg|]];
    unfold ForecastResponse.type, ForecastResponse.toJSON;
    rewrite has_type_object;
    cbn [forallb field_ok lookup fst snd app prop_opt req opt
         ForecastResponse.history ForecastResponse.forecast
         ForecastResponse.summaryText ForecastResponse.warnings
         ForecastResponse.diagnostics ForecastResponse.profile
         ForecastResponse.seasonality ForecastResponse.trend
         ForecastResponse.forecast_summary ForecastResponse.explanations
         ForecastResponse.narrativeScript ForecastResponse.targets
         String.eqb Ascii.eqb Bool.eqb required optional];
    rewrite ?(has_type_arr _ _ _ history_point_ok),
            ?(has_type_arr _ _ _ forecast_point_ok),
            ?(has_type_arr _ _ _ narrative_beat_ok),
            ?strings_ok, ?diagnostics_ok, ?profile_ok, ?seasonality_ok,
            ?trend_ok, ?forecast_summary_ok, ?explanations_ok, ?dict_ok;
    reflexivity.
Qed.

(** The keys of a serialised response are declared fields, and every
    required field is among them. *)
Lemma forecast_response_keys r :
  subset (json_keys (ForecastResponse.toJSON r))
         (field_names ForecastResponse.type) = true
  /\ subset (required_names ForecastResponse.type)
            (json_keys (ForecastResponse.toJSON r)) = true.
Proof.
  destruct r as [h f s w [d|] [p|] [se|] [tr|] [fs|] [ex|] [ns|] [tg|]];
    split; reflexivity.
Qed.

End Conformance.

(** ** The shape of the response *)

Section ResponseShape.

(** C1, as stated, fails: the response that [runForecast] builds in its
    [catch] branch serialises with the key [summaryText], which is not among
    the listed field names. *)
Lemma response_fields_not_only_listed :
  ~ (forall k,
       In k (json_keys (ForecastResponse.toJSON App.fallback)) ->
       In k listed_fields).
Proof.
  intros H. specialize (H "summaryText").
  assert (Hin : In "summaryText"
                   (json_keys (ForecastResponse.toJSON App.fallback)))
    by (simpl; tauto).
  apply H in Hin. simpl in Hin.
  repeat (destruct Hin as [Hin | Hin]; [discriminate Hin|]).
  exact Hin.
Qed.

(** C1, amended. A [ForecastResponse] serialises to a JSON object of its
    declared type, whose keys are declared fields: the ten listed names and,
    beside them, the required [summaryText] and the optional [targets];
    [history], [forecast], [summaryText] and [warnings] are always there.
    [history] is an array of [{ds, y}], [forecast] an array of
    [{ds, yhat, yhat_lower, yhat_upper}], [warnings] an array of strings and
    [diagnostics] is [{outliers, missing, deduped}]. *)
Theorem forecast_response_fields (r : ForecastResponse.t) :
  has_type ForecastResponse.type (ForecastResponse.toJSON r) = true
  /\ subset (json_keys (ForecastResponse.toJSON r))
            (field_names ForecastResponse.type) = true
  /\ subset (required_names ForecastResponse.type)
            (json_keys (ForecastResponse.toJSON r)) = true
  /\ field_names ForecastResponse.type
     = ["history"; "forecast"; "summaryText"; "warnings"; "diagnostics";
        "profile"; "seasonality"; "trend"; "forecast_summary";
        "explanations"; "narrativeScript"; "targets"]
  /\ required_names ForecastResponse.type
     = ["history"; "forecast"; "summaryText"; "warnings"]
  /\ subset listed_fields (field_names ForecastResponse.type) = true
  /\ subset (field_names ForecastResponse.type)
            (listed_fields ++ ["summaryText"; "targets"])%list = true
  /\ field_type ForecastResponse.type "history"
     = Some (TArray HistoryPoint.type)
  /\ field_names HistoryPoint.type = ["ds"; "y"]
  /\ field_type ForecastResponse.type "forecast"
     = Some (TArray ForecastPoint.type)
  /\ field_names ForecastPoint.type = ["ds"; "yhat"; "yhat_lower"; "yhat_upper"]
  /\ field_type ForecastResponse.type "warnings" = Some (TArray TString)
  /\ field_type ForecastResponse.type "diagnostics" = Some Diagnostics.type
  /\ field_names Diagnostics.type = ["outliers"; "missing"; "deduped"].
Proof.
  split; [exact (forecast_response_ok r)|].
  split; [exact (proj1 (forecast_response_keys r))|].
  split; [exact (proj2 (forecast_response_keys r))|].
  repeat (split; [reflexivity|]). reflexivity.
Qed.

(** C5, as stated, fails: the element type of [narrativeScript] has no field
    [wait_ms]; the wait duration is the field [waitMs]. *)
Lemma beat_fields_not_as_listed :
  field_type ForecastResponse.type "narrativeScript"
  = Some (TArray NarrativeBeat.type)
  /\ field_names NarrativeBeat.type <> listed_beat_fields
  /\ field_type NarrativeBeat.type "wait_ms" = None
  /\ forall b : NarrativeBeat.t,
       path_exists (NarrativeBeat.toJSON b) ["wait_ms"] = false.
Proof.
  split; [reflexivity|]. split; [discriminate|]. split; reflexivity.
Qed.

(** C5, amended. Every beat of [narrativeScript] has exactly the fields
    [id], [text], [highlight] and [waitMs], all required: [id] and [text]
    are strings, [highlight] is an array of strings and [waitMs], the wait
    duration, is a number; a beat serialises to an object with exactly
    these keys. *)
Theorem narrative_beat_fields (b : NarrativeBeat.t) :
  field_type ForecastResponse.type "narrativeScript"
  = Some (TArray NarrativeBeat.type)
  /\ field_names NarrativeBeat.type = ["id"; "text"; "highlight"; "waitMs"]
  /\ required_names NarrativeBeat.type = field_names NarrativeBeat.type
  /\ field_type NarrativeBeat.type "id" = Some TString
  /\ field_type NarrativeBeat.type "text" = Some TString
  /\ field_type NarrativeBeat.type "highlight" = Some (TArray TString)
  /\ field_type NarrativeBeat.type "waitMs" = Some TNumber
  /\ json_keys (NarrativeBeat.toJSON b) = ["id"; "text"; "highlight"; "waitMs"]
  /\ has_type NarrativeBeat.type (NarrativeBeat.toJSON b) = true.
Proof.
  repeat (split; [reflexivity|]). exact (narrative_beat_ok b).
Qed.

End ResponseShape.

(** ** Metric paths: the tiles and the highlights *)

Section MetricPaths.
Import App.





(** [forecast] is an array: no property name leads into it. *)
Lemma forecast_path r k rest :
  path_exists (ForecastResponse.toJSON r) ("forecast" :: k :: rest) = false.
Proof. reflexivity. Qed.



End MetricPaths.

(** ** [runForecast]: what the caller is left with *)

Section RunForecast.

Lemma fallback_json :
  ForecastResponse.toJSON App.fallback
  = JObj [("history", JArr []); ("forecast", JArr []);
          ("summaryText", JStr "エラーが発生しました。");
          ("warnings", JArr [JStr "API呼び出しに失敗しました。"])].
Proof. reflexivity. Qed.

(** [runForecast] of the typed model is a request on the wire with nothing
    in between and a reply that is a serialised response. *)
Lemma app_run_on_the_wire (s : App.State) (r : ForecastResponse.t) (ok : bool) :
  App.ready s = true ->
  Wire.request (Wire.Decoded ok (ForecastResponse.toJSON r)) (Wire.of_app s)
  = Some (Wire.of_app (App.runForecast (App.ApiReply r) s)).
Proof.
  intros H. unfold Wire.request, Wire.start, App.runForecast.
  change (Wire.ready (Wire.of_app s)) with (App.ready s). rewrite H.
  reflexivity.
Qed.

(** The status flag of the reply plays no part. *)
Lemma settle_ignores_status (ok ok' : bool) (body : json) (c : Wire.Cells) :
  Wire.settle (Wire.Decoded ok body) c = Wire.settle (Wire.Decoded ok' body) c.
Proof. reflexivity. Qed.

(** C4, as stated, fails: when [fetch] throws, the request leaves the caller
    neither with a complete response nor without one: the result is the
    object of the [catch] branch, which has none of the optional sections,
    and no error kind is named. *)
Lemma failed_request_stores_stub :
  match Wire.request Wire.FetchThrows Wire.idle with
  | Some c => ~ request_contract c
  | None => False
  end.
Proof.
  cbn. intros [[j [Hj Hc]] | Hn].
  - injection Hj as <-. discriminate Hc.
  - discriminate Hn.
Qed.

(** C4, amended. When the backend answers with a complete response, that
    response is what the caller receives, whatever happened while the request
    was pending; and when the request fails by throwing ([fetch] rejects, or
    the body is not JSON), the caller receives, instead of a named error
    kind, the fallback response with empty [history] and [forecast], the
    summary text of the [catch] branch and its one warning: a value of the
    type [ForecastResponse] that has none of the optional sections. *)
Theorem request_outcome (c : Wire.Cells) (o : Wire.Reply) :
  (forall body, o = Wire.Decoded true body ->
     Wire.result (Wire.settle o c) = Some body
     /\ (complete_json body = true -> request_contract (Wire.settle o c)))
  /\ (o = Wire.FetchThrows \/ (exists ok, o = Wire.BodyThrows ok) ->
      Wire.result (Wire.settle o c)
      = Some (JObj [("history", JArr []); ("forecast", JArr []);
                    ("summaryText", JStr "エラーが発生しました。");
                    ("warnings", JArr [JStr "API呼び出しに失敗しました。"])])
      /\ ~ request_contract (Wire.settle o c))
  /\ has_type ForecastResponse.type (ForecastResponse.toJSON App.fallback)
     = true
  /\ complete_json (ForecastResponse.toJSON App.fallback) = false.
Proof.
  split.
  { intros body ->. split; [reflexivity|].
    intros Hc. left. exists body. split; [reflexivity | exact Hc]. }
  split.
  { intros Hthrow.
    assert (Hs : Wire.result (Wire.settle o c)
                 = Some (ForecastResponse.toJSON App.fallback))
      by (destruct Hthrow as [-> | [ok ->]]; reflexivity).
    split; [rewrite Hs, fallback_json; reflexivity|].
    intros [[j [Hj Hc]] | Hn].
    - rewrite Hs in Hj. injection Hj as <-. discriminate Hc.
    - rewrite Hs in Hn. discriminate Hn. }
  split; [exact (forecast_response_ok App.fallback) | reflexivity].
Qed.

Lemma request_outcome_witness :
  complete_json (ForecastResponse.toJSON Sample.response) = true
  /\ request_contract
       (Wire.settle (Wire.Decoded true (ForecastResponse.toJSON Sample.response))
                    (Wire.changeTab 0 (Wire.mkCells (Some Sample.file) "日付"
                                         "終値" 1 true None)))
  /\ ~ request_contract (Wire.settle (Wire.BodyThrows false) Wire.idle).
Proof.
  assert (Hc : complete_json (ForecastResponse.toJSON Sample.response) = true)
    by (vm_compute; reflexivity).
  split; [exact Hc|].
  split.
  - destruct (request_outcome
                (Wire.changeTab 0 (Wire.mkCells (Some Sample.file) "日付"
                                     "終値" 1 true None))
                (Wire.Decoded true (ForecastResponse.toJSON Sample.response)))
      as (Hok & _).
    exact (proj2 (Hok _ eq_refl) Hc).
  - destruct (request_outcome Wire.idle (Wire.BodyThrows false))
      as (_ & Hthrow & _).
    exact (proj2 (Hthrow (or_intror (ex_intro _ false eq_refl)))).
Defined.

End RunForecast.

(** ** The Forecaster *)

Section ForecasterProperties.
Import Forecaster.

Variable Model : Type.
Variable fit : Series -> option Model.
Variable predict : Model -> Z -> Q * (Q * Q).

Lemma dates_of_points m ds :
  forecast_dates (map (point_at Model predict m) ds) = ds.
Proof.
  unfold forecast_dates. rewrite map_map. simpl. apply map_id.
Qed.

Lemma future_dates_length d n : List.length (future_dates d n) = n.
Proof. unfold future_dates. now rewrite length_map, length_seq. Qed.

Lemma future_dates_nth d n i :
  (i < n)%nat -> nth i (future_dates d n) 0 = d + 1 + Z.of_nat i.
Proof.
  intros Hi. unfold future_dates.
  rewrite (nth_indep _ 0 (d + Z.of_nat 0)) by now rewrite length_map, length_seq.
  rewrite (map_nth (fun i => d + Z.of_nat i)), seq_nth by exact Hi.
  lia.
Qed.

(** C3. For every series of at least 2 points and every positive
    [horizon_days], the Forecaster either fails because the library could
    not fit the series, or returns a sequence of exactly [horizon_days]
    points whose dates are the consecutive days that start the day after
    the last historical date; and it does return one whenever the library
    fits the series. *)
Theorem forecaster_horizon (s : Series) (horizon_days : Z)
  (Hlen : (2 <= List.length s)%nat) (Hpos : 0 < horizon_days) :
  match forecaster Model fit predict s horizon_days with
  | Ok pts =>
      Z.of_nat (List.length pts) = horizon_days
      /\ (forall i, (i < List.length pts)%nat ->
            nth i (forecast_dates pts) 0 = last_date s + 1 + Z.of_nat i)
  | Err e => e = ForecastLibraryError /\ fit s = None
  end
  /\ (forall m, fit s = Some m ->
        exists pts, forecaster Model fit predict s horizon_days = Ok pts).
Proof.
  unfold forecaster.
  assert (H1 : (horizon_days <=? 0) = false) by (apply Z.leb_gt; lia).
  assert (H2 : Nat.ltb (List.length s) min_points = false)
    by (apply Nat.ltb_ge; exact Hlen).
  rewrite H1, H2.
  destruct (fit s) as [m|].
  - split; [|intros m' _; eexists; reflexivity].
    rewrite length_map, future_dates_length, dates_of_points.
    split; [lia|].
    intros i Hi. now apply future_dates_nth.
  - split; [split; reflexivity | intros m Hm; discriminate Hm].
Qed.

(** C8. With [horizon_days = 0] the Forecaster fails with a validation
    error, whatever the series and the library; and no call of it returns
    an empty sequence: a returned forecast has a positive horizon and at
    least one point. *)
Theorem forecaster_zero_horizon (s : Series) :
  forecaster Model fit predict s 0 = Err ValidationError
  /\ (forall horizon_days pts,
        forecaster Model fit predict s horizon_days = Ok pts ->
        0 < horizon_days /\ pts <> []).
Proof.
  split; [reflexivity|].
  intros h pts. unfold forecaster.
  destruct (h <=? 0) eqn:Hh; [discriminate|].
  apply Z.leb_gt in Hh.
  destruct (Nat.ltb (List.length s) min_points); [discriminate|].
  destruct (fit s) as [m|]; [|discriminate].
  intros [= <-]. split; [exact Hh|].
  intros Hnil. apply (f_equal (@List.length _)) in Hnil.
  rewrite length_map, future_dates_length in Hnil. simpl in Hnil. lia.
Qed.

End ForecasterProperties.

Lemma forecaster_horizon_witness :
  (2 <= List.length Forecaster.two_days)%nat /\ 0 < 3
  /\ exists pts,
       Forecaster.forecaster Q Forecaster.naive_fit Forecaster.naive_predict
         Forecaster.two_days 3 = Forecaster.Ok pts
       /\ forecast_dates pts = [19002; 19003; 19004].
Proof.
  assert (Hlen : (2 <= List.length Forecaster.two_days)%nat) by (simpl; lia).
  assert (Hpos : 0 < 3) by lia.
  split; [exact Hlen|]. split; [exact Hpos|].
  destruct (proj2 (forecaster_horizon Q Forecaster.naive_fit
                     Forecaster.naive_predict Forecaster.two_days 3 Hlen Hpos)
                  (12#1)%Q eq_refl) as [pts Hpts].
  exists pts. split; [exact Hpts|].
  vm_compute in Hpts. injection Hpts as <-. reflexivity.
Defined.

Lemma forecaster_zero_horizon_witness :
  Forecaster.forecaster Q Forecaster.naive_fit Forecaster.naive_predict
    Forecaster.two_days 0 = Forecaster.Err Forecaster.ValidationError
  /\ 0 < 3.
Proof.
  destruct (forecaster_zero_horizon Q Forecaster.naive_fit
              Forecaster.naive_predict Forecaster.two_days) as [H0 Hne].
  split; [exact H0|].
  exact (proj1 (Hne 3 _ eq_refl)).
Defined.

(** ** What every session keeps *)

Section SessionInvariants.
Import App.

Lemma run_invariant (P : State -> Prop) :
  (forall s e, P s -> P (step s e)) ->
  forall es s, P s -> P (run s es).
Proof.
  intros Hstep es. induction es as [|e es IH]; intros s H; simpl; [exact H|].
  apply IH, Hstep, H.
Qed.

Ltac open_handlers :=
  unfold runForecast, onUpload_backend, toggleReportMode, closeReport,
         nextBeat, replay, back, next;
  repeat match goal with
         | |- context [match ?x with _ => _ end] => destruct x eqn:?
         | |- context [if ?x then _ else _] => destruct x eqn:?
         end.

Lemma step_quiet s e : quiet_outside_report s -> quiet_outside_report (step s e).
Proof.
  unfold quiet_outside_report, step. intros H.
  destruct (enabled s e) eqn:En; [|exact H].
  destruct e; cbn [handle];
    try (open_handlers; cbn; solve [exact H | intros _; reflexivity | discriminate]).
  - (* next beat: only there in report mode *)
    cbn in En. destruct (reportMode s) eqn:R; [|discriminate En].
    open_handlers; cbn; rewrite R; discriminate.
  - (* replay: only there in report mode *)
    cbn in En. destruct (reportMode s) eqn:R; [|discriminate En].
    open_handlers; cbn; rewrite R; discriminate.
Qed.

(** X1. Outside report mode no metric is highlighted: in every state that a
    session reaches from the initial one, [reportMode] off means that
    [highlightedMetrics] is empty, so that no tile is drawn highlighted. *)
Theorem no_highlight_outside_report (es : list Event) (t : Tile)
  (Hoff : reportMode (run init es) = false) :
  highlightedMetrics (run init es) = []
  /\ highlighted (run init es) t = false.
Proof.
  assert (H : quiet_outside_report (run init es)).
  { apply run_invariant; [exact step_quiet|]. intros _. reflexivity. }
  specialize (H Hoff). split; [exact H|].
  unfold highlighted. now rewrite H.
Qed.

Lemma no_highlight_outside_report_witness :
  let es := (Sample.session ++ [ClickCloseReport])%list in
  reportMode (run init es) = false
  /\ highlightedMetrics (run init es) = [].
Proof.
  intros es.
  assert (Hoff : reportMode (run init es) = false) by (vm_compute; reflexivity).
  split; [exact Hoff|].
  exact (proj1 (no_highlight_outside_report es
                  (mkTile "profile.mean" "profile" "mean") Hoff)).
Defined.





Lemma step_file_behind s e :
  file_behind_wizard s -> file_behind_wizard (step s e).
Proof.
  unfold file_behind_wizard, step. intros H.
  destruct (enabled s e) eqn:En; [|exact H].
  destruct e; cbn [handle];
    try (rewrite ?onUpload_backend_activeStep, ?runForecast_activeStep,
                 ?toggleReportMode_activeStep, ?nextBeat_activeStep,
                 ?replay_activeStep;
         open_handlers; cbn; solve [exact H | discriminate]).
  - (* the time series button is there at step 1 *)
    cbn in En. cbn. intros _. apply H.
    apply andb_prop in En. destruct En as [_ En].
    apply Z.eqb_eq in En. lia.
  - cbn in En. cbn. intros _. apply H.
    apply andb_prop in En. destruct En as [_ En].
    apply Z.eqb_eq in En. lia.
  - (* back *)
    cbn. intros Hge. apply H. lia.
  - (* next: at step 0 it needs a file *)
    cbn in En. cbn. intros Hge.
    apply andb_prop in En. destruct En as [_ En].
    unfold canNext in En.
    destruct (activeStep s) as [|p|p] eqn:Ha.
    + destruct (file s); [discriminate | discriminate En].
    + apply H. lia.
    + lia.
Qed.

(** X3. The wizard cannot get past its first step without a file: in every
    state a session reaches with [activeStep >= 1], a file is chosen. *)
Theorem wizard_needs_file (es : list Event)
  (Hstep : 1 <= activeStep (run init es)) :
  file (run init es) <> None.
Proof.
  assert (H : file_behind_wizard (run init es)).
  { apply run_invariant; [exact step_file_behind|].
    unfold file_behind_wizard. cbn. lia. }
  exact (H Hstep).
Qed.

Lemma wizard_needs_file_witness :
  1 <= activeStep (run init Sample.setup)
  /\ file (run init Sample.setup) <> None
  /\ activeStep (run init [ClickNext; ClickTimeSeries; ClickMethod]) = 0.
Proof.
  assert (Hstep : 1 <= activeStep (run init Sample.setup))
    by (vm_compute; discriminate).
  split; [exact Hstep|].
  split; [exact (wizard_needs_file Sample.setup Hstep) | reflexivity].
Defined.

End SessionInvariants.

(** ** Stepping through the narrative *)

Section NarrativeWalk.
Import App.

Lemma index_of_nat {A : Type} (l : list A) (j : nat) :
  Js.index l (Z.of_nat j) = nth_error l j.
Proof.
  unfold Js.index.
  destruct (Z.of_nat j <? 0) eqn:E; [apply Z.ltb_lt in E; lia|].
  now rewrite Nat2Z.id.
Qed.

Lemma nextBeat_result s : result (nextBeat s) = result s.
Proof.
  unfold nextBeat. destruct (script s) as [beats|]; [|reflexivity].
  destruct (currentScript s <? Z.of_nat (List.length beats) - 1); [|reflexivity].
  destruct (Js.index beats (currentScript s + 1)); reflexivity.
Qed.

Lemma script_of_result s s' : result s' = result s -> script s' = script s.
Proof. intros H. unfold script. now rewrite H. Qed.

(** The state after [replay] and [k] clicks on 次へ. *)
Lemma walk_state s beats k :
  script s = Some beats -> beats <> [] ->
  let sk := nextBeats k (replay s) in
  result sk = result s
  /\ currentScript sk = Z.of_nat (Nat.min k (List.length beats - 1))
  /\ highlightedMetrics sk
     = if Nat.ltb k (List.length beats)
       then match nth_error beats k with
            | Some b => NarrativeBeat.highlight b
            | None => []
            end
       else [].
Proof.
  intros Hs Hne. induction k as [|k IH].
  - cbn zeta. unfold nextBeats. cbn [Nat.iter].
    destruct beats as [|b0 rest]; [contradiction|].
    assert (Hf : firstScript s = Some b0)
      by (unfold firstScript; rewrite Hs; reflexivity).
    split; [apply replay_result|].
    unfold replay. rewrite Hf. split; reflexivity.
  - cbn zeta in IH. destruct IH as (Hr & Hc & Hh).
    cbn zeta. unfold nextBeats in *. rewrite !Nat.iter_succ.
    set (sk := Nat.iter k nextBeat (replay s)) in *.
    split; [rewrite nextBeat_result; exact Hr|].
    unfold nextBeat. rewrite (script_of_result s sk Hr), Hs, Hc.
    assert (Hn : (1 <= List.length beats)%nat)
      by (destruct beats; [contradiction | simpl; lia]).
    destruct (Z.of_nat (Nat.min k (List.length beats - 1))
              <? Z.of_nat (List.length beats) - 1) eqn:E.
    + apply Z.ltb_lt in E.
      assert (Hk : (S k <= List.length beats - 1)%nat) by lia.
      replace (Z.of_nat (Nat.min k (List.length beats - 1)) + 1)
        with (Z.of_nat (S k)) by lia.
      rewrite index_of_nat.
      assert (Hlt : Nat.ltb (S k) (List.length beats) = true)
        by (apply Nat.ltb_lt; lia).
      rewrite Hlt.
      destruct (nth_error beats (S k)) as [b|] eqn:Hb.
      * cbn [currentScript highlightedMetrics setCurrentScript
             setHighlightedMetrics].
        split; [f_equal; lia | reflexivity].
      * apply nth_error_None in Hb. lia.
    + apply Z.ltb_ge in E.
      assert (Hk : (List.length beats - 1 <= k)%nat) by lia.
      assert (Hlt : Nat.ltb (S k) (List.length beats) = false)
        by (apply Nat.ltb_ge; lia).
      rewrite Hlt.
      cbn [currentScript highlightedMetrics setHighlightedMetrics].
      split; [rewrite Hc; f_equal; lia | reflexivity].
Qed.

(** X4. Stepping through the narrative: after 最初へ and [k] clicks on 次へ
    over a script of [n >= 1] beats, the current beat is [min(k, n-1)] and the
    panel shows its text; while [k < n] the highlighted metrics are those of
    beat [k], and from the [n]-th click on nothing is highlighted. The beat
    index never passes the last beat, and 次へ is never disabled. *)
Theorem narrative_walk (s : State) (beats : list NarrativeBeat.t) (k : nat)
  (Hs : script s = Some beats) (Hne : beats <> []) :
  let sk := nextBeats k (replay s) in
  currentScript sk = Z.of_nat (Nat.min k (List.length beats - 1))
  /\ (forall b, nth_error beats (Nat.min k (List.length beats - 1)) = Some b ->
        shownText sk = NarrativeBeat.text b)
  /\ (forall b, nth_error beats k = Some b ->
        highlightedMetrics sk = NarrativeBeat.highlight b)
  /\ ((List.length beats <= k)%nat -> highlightedMetrics sk = [])
  /\ (scriptLength sk <=? currentScript sk) = false.
Proof.
  intros sk. destruct (walk_state s beats k Hs Hne) as (Hr & Hc & Hh).
  fold sk in Hr, Hc, Hh.
  assert (Hn : (1 <= List.length beats)%nat)
    by (destruct beats; [contradiction | simpl; lia]).
  split; [exact Hc|].
  split.
  { intros b Hb. unfold shownText.
    rewrite (script_of_result s sk Hr), Hs, Hc, index_of_nat, Hb.
    reflexivity. }
  split.
  { intros b Hb. rewrite Hh.
    assert (Hlt : Nat.ltb k (List.length beats) = true).
    { apply Nat.ltb_lt. apply nth_error_Some. congruence. }
    now rewrite Hlt, Hb. }
  split.
  { intros Hge. rewrite Hh.
    assert (Hlt : Nat.ltb k (List.length beats) = false)
      by (apply Nat.ltb_ge; exact Hge).
    now rewrite Hlt. }
  unfold scriptLength. rewrite (script_of_result s sk Hr), Hs, Hc.
  apply Z.leb_gt. lia.
Qed.

Lemma narrative_walk_witness :
  let s := run init Sample.session in
  currentScript (nextBeats 5 (replay s)) = 2
  /\ highlightedMetrics (nextBeats 1 (replay s))
     = ["forecast.p50_30"; "forecast.delta_30_pct"]
  /\ highlightedMetrics (nextBeats 5 (replay s)) = [].
Proof.
  intros s.
  assert (Hs : script s = Some Sample.beats) by (vm_compute; reflexivity).
  assert (Hne : Sample.beats <> []) by discriminate.
  destruct (narrative_walk s Sample.beats 5 Hs Hne) as (Hc & _ & _ & Hend & _).
  destruct (narrative_walk s Sample.beats 1 Hs Hne) as (_ & _ & Hh & _).
  split; [exact Hc|].
  split; [exact (Hh _ eq_refl) | apply Hend; simpl; lia].
Defined.

(** X5. A new forecast does not rewind the narrative: [runForecast] leaves
    report mode, the beat index and the highlighted metrics as they were. So
    when the new response has a script that ends before the current index,
    the panel shows no text and 次へ is disabled. *)
Theorem run_forecast_keeps_narrative (s : State) (body : ForecastResponse.t)
  (beats : list NarrativeBeat.t)
  (Hready : ready s = true)
  (Hscript : ForecastResponse.narrativeScript body = Some beats)
  (Hstale : Z.of_nat (List.length beats) <= currentScript s) :
  let s' := runForecast (ApiReply body) s in
  reportMode s' = reportMode s
  /\ currentScript s' = currentScript s
  /\ highlightedMetrics s' = highlightedMetrics s
  /\ shownText s' = ""
  /\ enabled s' ClickNextBeat = false.
Proof.
  intros s'. subst s'. unfold runForecast. rewrite Hready. cbn.
  repeat (split; [reflexivity|]).
  split.
  - unfold shownText, script. cbn. rewrite Hscript.
    unfold Js.index.
    destruct (currentScript s <? 0) eqn:E; [reflexivity|].
    assert (Hnone : nth_error beats (Z.to_nat (currentScript s)) = None)
      by (apply nth_error_None; lia).
    now rewrite Hnone.
  - unfold hasScript, scriptLength, script. cbn. rewrite Hscript.
    assert (Hle : (Z.of_nat (List.length beats) <=? currentScript s) = true)
      by (apply Z.leb_le; exact Hstale).
    rewrite Hle. cbn. apply Bool.andb_false_r.
Qed.

End NarrativeWalk.

Lemma run_forecast_keeps_narrative_witness :
  let s := App.run App.init (Sample.session ++ [App.ChangeTab 0])%list in
  let body := ForecastResponse.mk [] [] "again" [] None None None None None
                None (Some [NarrativeBeat.mk "only" "一言だけ。" [] (1000#1)])
                None in
  App.enabled s (App.ClickRun (App.ApiReply body)) = true
  /\ App.currentScript (App.runForecast (App.ApiReply body) s) = 2
  /\ App.shownText (App.runForecast (App.ApiReply body) s) = "".
Proof.
  intros s body.
  assert (Hready : App.ready s = true) by (vm_compute; reflexivity).
  assert (Hstale : Z.of_nat (List.length
                               [NarrativeBeat.mk "only" "一言だけ。" [] (1000#1)])
                   <= App.currentScript s)
    by (vm_compute; discriminate).
  destruct (run_forecast_keeps_narrative s body _ Hready eq_refl Hstale)
    as (_ & Hc & _ & Ht & _).
  split; [vm_compute; reflexivity|].
  split; [rewrite Hc; vm_compute; reflexivity | exact Ht].
Defined.

(** ** How the handlers compose *)

Section Composition.
Import App.

(** X6. The last reply wins: running the forecast twice leaves the state that
    the second run alone would leave; nothing of the first reply is kept. *)
Theorem run_forecast_last_wins (s : State) (o1 o2 : ApiOutcome) :
  runForecast o2 (runForecast o1 s) = runForecast o2 s.
Proof.
  destruct s as [tb st f pv dc vc hz bs rs rm cs hm sm].
  unfold runForecast, ready. cbn.
  destruct f as [f|]; cbn; [|reflexivity].
  destruct (Js.nonempty dc) eqn:Hd; cbn; [|rewrite Hd; reflexivity].
  destruct (Js.nonempty vc) eqn:Hv; cbn; [|rewrite Hd, Hv; reflexivity].
  destruct o1; cbn; rewrite Hd, Hv; cbn; destruct o2; reflexivity.
Qed.

(** X7. Back undoes next on the steps 0..3 and next undoes back on the steps
    1..4; on the last step next changes nothing, so back after next goes one
    step down, and on the first step back changes nothing. *)
Theorem back_undoes_next (s : State) :
  (0 <= activeStep s <= 3 -> back (next s) = s)
  /\ (1 <= activeStep s <= 4 -> next (back s) = s)
  /\ (activeStep s = 4 -> next s = s /\ activeStep (back (next s)) = 3)
  /\ (activeStep s = 0 -> back s = s /\ activeStep (next (back s)) = 1).
Proof.
  destruct s as [tb st f pv dc vc hz bs rs rm cs hm sm].
  unfold back, next, setActiveStep. cbn.
  split; [intros Hs; f_equal; lia|].
  split; [intros Hs; f_equal; lia|].
  split; intros ->; split; reflexivity.
Qed.

Lemma back_undoes_next_witness :
  back (next init) = init
  /\ next (run init Sample.setup) = run init Sample.setup.
Proof.
  destruct (back_undoes_next init) as (H03 & _).
  destruct (back_undoes_next (run init Sample.setup)) as (_ & _ & H4 & _).
  split; [apply H03; cbn; lia|].
  apply H4. vm_compute. reflexivity.
Defined.

End Composition.

(** ** The report dialog, the percent changes and the local preview *)

Section Rendering.
Import View.








(** [d && d > 0] for a number [d]. *)
Lemma truthy_and_positive q :
  (negb (Qeq_bool q 0) && negb (Qle_bool q 0))%bool = true <-> (0 < q)%Q.
Proof.
  split.
  - intros H. apply andb_prop in H. destruct H as [_ H].
    apply Bool.negb_true_iff in H.
    apply Qnot_le_lt. intros Hle. apply Qle_bool_iff in Hle. congruence.
  - intros H. apply andb_true_intro. split; apply Bool.negb_true_iff.
    + destruct (Qeq_bool q 0) eqn:E; [|reflexivity].
      apply Qeq_bool_iff in E. rewrite E in H.
      exfalso. exact (Qlt_irrefl _ H).
    + destruct (Qle_bool q 0) eqn:E; [|reflexivity].
      apply Qle_bool_iff in E. exfalso. exact (Qlt_not_le _ _ H E).
Qed.

(** X9. A percent change is painted in the success colour exactly when it is
    a number greater than 0; a missing ([null]) change, 0 and every negative
    change are painted in the error colour. *)
Theorem delta_color (d : option Q) :
  (deltaColor d = "success.main" <-> exists q, d = Some q /\ (0 < q)%Q)
  /\ (deltaColor d = "success.main" \/ deltaColor d = "error.main")
  /\ deltaColor None = "error.main"
  /\ deltaColor (Some 0%Q) = "error.main".
Proof.
  split; [|split; [|split; reflexivity]].
  - destruct d as [q|]; cbn [deltaColor].
    + destruct (negb (Qeq_bool q 0) && negb (Qle_bool q 0))%bool eqn:E.
      * split; [|reflexivity].
        intros _. exists q. split; [reflexivity|].
        now apply truthy_and_positive.
      * split; [discriminate|].
        intros (q' & Hq & Hpos). injection Hq as <-.
        apply truthy_and_positive in Hpos. congruence.
    + split; [discriminate | intros (q & Hq & _); discriminate Hq].
  - destruct d as [q|]; cbn [deltaColor]; [|now right].
    destruct (negb (Qeq_bool q 0) && negb (Qle_bool q 0))%bool;
      [now left | now right].
Qed.

Lemma delta_color_witness :
  deltaColor (Some (32 # 10)) = "success.main"
  /\ deltaColor (Some (- (1 # 2))%Q) = "error.main".
Proof.
  split.
  - apply (proj1 (delta_color (Some (32 # 10)))).
    exists (32 # 10). split; [reflexivity | reflexivity].
  - reflexivity.
Defined.

(** X10. The local preview is a rectangular table: it has one row per parsed
    row and every row has one cell per column. The cell of a row under a
    column is the row's own value for that field; when the row has no such
    field it is [null], unless the column is named like a member of
    [Object.prototype] (such as [toString]), in which case the read picks up
    that member. Without a header ([meta.fields] undefined) there are no
    columns and every row is empty. *)
Theorem local_preview_table (fields : option (list string))
  (data : list (list (string * PreviewResponse.cell))) :
  let p := localPreview fields data in
  List.length (headRows p) = List.length data
  /\ Forall (fun row => List.length row = List.length (columns p))
            (headRows p)
  /\ (forall i j r c,
        nth_error data i = Some r ->
        nth_error (columns p) j = Some c ->
        exists row,
          nth_error (headRows p) i = Some row
          /\ nth_error row j
             = Some (match lookup c r with
                     | Some v => Cell v
                     | None => if inherited c then Member c
                               else Cell PreviewResponse.CNull
                     end))
  /\ (fields = None ->
      columns p = [] /\ Forall (fun row => row = []) (headRows p)).
Proof.
  cbn zeta. unfold localPreview. cbn [columns headRows].
  split; [apply length_map|].
  split.
  { apply Forall_forall. intros row Hrow.
    apply in_map_iff in Hrow. destruct Hrow as (r & <- & _).
    apply length_map. }
  split.
  { intros i j r c Hr Hc. eexists. split.
    - rewrite nth_error_map, Hr. reflexivity.
    - rewrite nth_error_map, Hc. cbn [option_map]. unfold get.
      destruct (lookup c r); [reflexivity|].
      destruct (inherited c); reflexivity. }
  intros ->. split; [reflexivity|].
  apply Forall_forall. intros row Hrow.
  apply in_map_iff in Hrow. destruct Hrow as (r & <- & _). reflexivity.
Qed.

Lemma local_preview_table_witness :
  let data := [[("Date", PreviewResponse.CStr "2024-01-01");
                ("Close", PreviewResponse.CStr "100");
                ("toString", PreviewResponse.CStr "a")];
               [("Date", PreviewResponse.CStr "2024-01-02")]] in
  headRows (localPreview (Some ["Date"; "Close"; "toString"]) data)
  = [[Cell (PreviewResponse.CStr "2024-01-01");
      Cell (PreviewResponse.CStr "100"); Cell (PreviewResponse.CStr "a")];
     [Cell (PreviewResponse.CStr "2024-01-02"); Cell PreviewResponse.CNull;
      Member "toString"]]
  /\ exists row,
       nth_error (headRows (localPreview (Some ["Date"; "Close"; "toString"])
                                         data)) 1 = Some row
       /\ nth_error row 2 = Some (Member "toString").
Proof.
  intros data. split; [reflexivity|].
  destruct (local_preview_table (Some ["Date"; "Close"; "toString"]) data)
    as (_ & _ & Hcell & _).
  exact (Hcell 1%nat 2%nat [("Date", PreviewResponse.CStr "2024-01-02")]
               "toString" eq_refl eq_refl).
Defined.

End Rendering.

(** ** More on the column auto-pick *)

Section AutoPickMore.
Import App.

Lemma or_member (a b : option string) (cols : list string) :
  (forall x, a = Some x -> In x cols) ->
  (forall x, b = Some x -> In x cols) ->
  In (Js.or_empty (Js.or a b)) cols \/ Js.or_empty (Js.or a b) = "".
Proof.
  intros Ha Hb. unfold Js.or.
  destruct (Js.truthy a).
  - destruct a as [x|]; [|now right]. rewrite or_empty_some. left. now apply Ha.
  - destruct b as [x|]; [|now right]. rewrite or_empty_some. left. now apply Hb.
Qed.

Lemma index_member {A : Type} (l : list A) i x :
  Js.index l i = Some x -> In x l.
Proof.
  unfold Js.index. destruct (i <? 0); [discriminate|]. apply nth_error_In.
Qed.

Lemma find_member {A : Type} (f : A -> bool) l x :
  find f l = Some x -> In x l.
Proof. intros H. now apply find_some in H. Qed.

(** X11. The auto-pick never makes up a name: after a successful backend
    preview the date column and the value column are each the name of a
    column of the preview, or the empty string. *)
Theorem auto_pick_is_a_column (body : PreviewResponse.t) (s : State) :
  let cols := PreviewResponse.columns body in
  let s' := onUpload_backend (PreviewReply true body) s in
  (In (dateCol s') cols \/ dateCol s' = "")
  /\ (In (valueCol s') cols \/ valueCol s' = "").
Proof.
  cbn zeta. cbn. split.
  - unfold pickDate. apply or_member.
    + intros x. apply find_member.
    + intros x. apply index_member.
  - unfold pickValue. apply or_member.
    + intros x Hx. unfold Js.or in Hx.
      destruct (Js.truthy (find (Js.test valueRe) (PreviewResponse.columns body))).
      * now apply find_member in Hx.
      * now apply index_member in Hx.
    + intros x. apply index_member.
Qed.

Lemma or_nonempty a b :
  Js.truthy b = true -> Js.or_empty (Js.or a b) <> "".
Proof.
  intros Hb. unfold Js.or.
  destruct (Js.truthy a) eqn:Ha.
  - destruct a as [x|]; [|discriminate]. rewrite or_empty_some.
    intros ->. discriminate Ha.
  - destruct b as [x|]; [|discriminate]. rewrite or_empty_some.
    intros ->. discriminate Hb.
Qed.

Lemma nonempty_truthy x : x <> "" -> Js.truthy (Some x) = true.
Proof.
  intros H. cbn. destruct (String.eqb x "") eqn:E; [|reflexivity].
  apply String.eqb_eq in E. contradiction.
Qed.

Lemma nonempty_neq x : x <> "" -> Js.nonempty x = true.
Proof. intros H. unfold Js.nonempty. exact (nonempty_truthy x H). Qed.

Lemma or_same a c :
  a = Some c \/ a = None -> Js.or_empty (Js.or a (Some c)) = c.
Proof.
  intros [-> | ->]; unfold Js.or.
  - destruct (Js.truthy (Some c)); apply or_empty_some.
  - apply or_empty_some.
Qed.

(** X12. When the first column of a successfully previewed file has a name,
    both columns come out non-empty, so the gate of step 3 is open without
    the user typing anything. With a single named column, it is picked both
    as the date column and as the value column. *)
Theorem auto_pick_opens_step3 (body : PreviewResponse.t) (s : State)
  (c : string) (rest : list string)
  (Hcols : PreviewResponse.columns body = c :: rest) (Hc : c <> "") :
  let s' := onUpload_backend (PreviewReply true body) s in
  dateCol s' <> "" /\ valueCol s' <> ""
  /\ canNext (setActiveStep 3 s') = true
  /\ (rest = [] -> dateCol s' = c /\ valueCol s' = c).
Proof.
  cbn zeta. cbn. rewrite Hcols.
  assert (Hd : Js.or_empty (pickDate (c :: rest)) <> "").
  { unfold pickDate. apply or_nonempty. now apply nonempty_truthy. }
  assert (Hv : Js.or_empty (pickValue (c :: rest)) <> "").
  { unfold pickValue. apply or_nonempty. now apply nonempty_truthy. }
  split; [exact Hd|]. split; [exact Hv|].
  split.
  { unfold canNext. cbn. now rewrite (nonempty_neq _ Hd), (nonempty_neq _ Hv). }
  intros ->. unfold pickDate, pickValue. cbn [find].
  change (Js.index [c] 0) with (Some c).
  change (Js.index [c] 1) with (@None string).
  split.
  - apply or_same. destruct (Js.test dateRe c); [now left | now right].
  - apply or_same. destruct (Js.test valueRe c).
    + left. unfold Js.or. now rewrite (nonempty_truthy c Hc).
    + now right.
Qed.

Lemma auto_pick_opens_step3_witness :
  let body := PreviewResponse.mk ["day"] [] None in
  let s' := onUpload_backend (PreviewReply true body) init in
  dateCol s' = "day" /\ valueCol s' = "day".
Proof.
  intros body s'.
  assert (Hc : "day" <> "") by discriminate.
  destruct (auto_pick_opens_step3 body init "day" [] eq_refl Hc)
    as (_ & _ & _ & Hone).
  exact (Hone eq_refl).
Defined.

Lemma fold_ascii_idempotent c :
  Js.fold_ascii (Js.fold_ascii c) = Js.fold_ascii c.
Proof.
  destruct c as [[|] [|] [|] [|] [|] [|] [|] [|]]; reflexivity.
Qed.

Lemma fold_case_idempotent x : Js.fold_case (Js.fold_case x) = Js.fold_case x.
Proof.
  induction x as [|c x IH]; [reflexivity|].
  cbn. now rewrite fold_ascii_idempotent, IH.
Qed.

Lemma fold_case_empty x : String.eqb (Js.fold_case x) "" = String.eqb x "".
Proof. destruct x; reflexivity. Qed.

Lemma test_fold_case re x :
  Js.ignoreCase re = true -> Js.test re (Js.fold_case x) = Js.test re x.
Proof.
  intros Hi. unfold Js.test, Js.canonicalize. rewrite Hi.
  now rewrite fold_case_idempotent.
Qed.

Lemma find_fold_case re cols :
  Js.ignoreCase re = true ->
  find (Js.test re) (map Js.fold_case cols)
  = option_map Js.fold_case (find (Js.test re) cols).
Proof.
  intros Hi. induction cols as [|c cols IH]; [reflexivity|].
  cbn [map find]. rewrite (test_fold_case re c Hi).
  destruct (Js.test re c); [reflexivity | exact IH].
Qed.

Lemma index_fold_case cols i :
  Js.index (map Js.fold_case cols) i
  = option_map Js.fold_case (Js.index cols i).
Proof.
  unfold Js.index. destruct (i <? 0); [reflexivity|]. apply nth_error_map.
Qed.

Lemma or_fold_case a b :
  Js.or (option_map Js.fold_case a) (option_map Js.fold_case b)
  = option_map Js.fold_case (Js.or a b).
Proof.
  unfold Js.or.
  assert (Ht : Js.truthy (option_map Js.fold_case a) = Js.truthy a).
  { destruct a as [x|]; [|reflexivity]. cbn. now rewrite fold_case_empty. }
  rewrite Ht. now destruct (Js.truthy a).
Qed.

Lemma or_empty_fold_case a :
  Js.or_empty (option_map Js.fold_case a) = Js.fold_case (Js.or_empty a).
Proof.
  destruct a as [x|]; [|reflexivity]. cbn [option_map].
  now rewrite !or_empty_some.
Qed.

(** X13. The auto-pick does not depend on the case of ASCII letters: putting
    every column name in lower case gives the lower-case form of the same
    picks, so [DATE], [Date] and [date] are treated alike. *)
Theorem auto_pick_ignores_case (cols : list string) :
  Js.or_empty (pickDate (map Js.fold_case cols))
  = Js.fold_case (Js.or_empty (pickDate cols))
  /\ Js.or_empty (pickValue (map Js.fold_case cols))
     = Js.fold_case (Js.or_empty (pickValue cols)).
Proof.
  unfold pickDate, pickValue.
  rewrite !find_fold_case, !index_fold_case, !or_fold_case by reflexivity.
  split; apply or_empty_fold_case.
Qed.

End AutoPickMore.

(** ** What the two expressions of [onUpload] match *)

Section Matching.
Import App.

Lemma prefix_occurs p : forall s,
  String.prefix p s = true <-> exists post, s = String.append p post.
Proof.
  induction p as [|a p IH]; intros s.
  - split; [intros _; exists s; reflexivity|].
    intros _. destruct s; reflexivity.
  - destruct s as [|b s]; cbn.
    + split; [discriminate | intros (post & H); discriminate H].
    + destruct (Ascii.ascii_dec a b) as [<- | Hne].
      * rewrite IH. split; intros (post & H); exists post.
        -- now rewrite H.
        -- now injection H.
      * split; [discriminate|]. intros (post & H). injection H as H1 _.
        congruence.
Qed.

Lemma includes_occurs needle : forall hay,
  Js.includes needle hay = true <-> occurs_in needle hay.
Proof.
  induction hay as [|c hay IH].
  - cbn [Js.includes]. rewrite Bool.orb_false_r, prefix_occurs.
    split.
    + intros (post & H). exists "", post. exact H.
    + intros (pre & post & H). destruct pre as [|a pre]; [|discriminate H].
      exists post. exact H.
  - cbn [Js.includes]. rewrite Bool.orb_true_iff, prefix_occurs, IH.
    split.
    + intros [(post & H) | (pre & post & H)].
      * exists "", post. exact H.
      * exists (String c pre), post. cbn. now rewrite H.
    + intros (pre & post & H). destruct pre as [|a pre].
      * left. exists post. exact H.
      * right. cbn in H. injection H as _ H. exists pre, post. exact H.
Qed.

(** X14. What the two expressions match: a column name matches
    [/date|日時|日付|time|timestamp/i] exactly when its name, ASCII letters
    put in lower case, contains one of [date], [日時], [日付], [time],
    [timestamp], and it matches [/close|終|value|price|y/i] exactly when
    that contains one of [close], [終], [value], [price], [y]. So every name
    with a letter [y] or [Y] in it counts as a value column, and the empty
    name matches neither. *)
Theorem what_the_expressions_match (c : string) :
  (Js.test dateRe c = true <->
   exists alt, In alt ["date"; "日時"; "日付"; "time"; "timestamp"]
               /\ occurs_in alt (Js.fold_case c))
  /\ (Js.test valueRe c = true <->
      exists alt, In alt ["close"; "終"; "value"; "price"; "y"]
                  /\ occurs_in alt (Js.fold_case c))
  /\ (occurs_in "y" (Js.fold_case c) -> Js.test valueRe c = true)
  /\ Js.test dateRe "" = false
  /\ Js.test valueRe "" = false.
Proof.
  assert (Hgen : forall re, Js.ignoreCase re = true ->
            map Js.fold_case (Js.alternatives re) = Js.alternatives re ->
            (Js.test re c = true <->
             exists alt, In alt (Js.alternatives re)
                         /\ occurs_in alt (Js.fold_case c))).
  { intros re Hi Hlow. unfold Js.test, Js.canonicalize. rewrite Hi.
    rewrite existsb_exists. split.
    - intros (alt & Hin & Hinc). exists alt. split; [exact Hin|].
      apply includes_occurs.
      assert (Hf : Js.fold_case alt = alt).
      { rewrite <- Hlow in Hin. apply in_map_iff in Hin.
        destruct Hin as (a & <- & _). apply fold_case_idempotent. }
      now rewrite Hf in Hinc.
    - intros (alt & Hin & Hocc). exists alt. split; [exact Hin|].
      assert (Hf : Js.fold_case alt = alt).
      { rewrite <- Hlow in Hin. apply in_map_iff in Hin.
        destruct Hin as (a & <- & _). apply fold_case_idempotent. }
      rewrite Hf. now apply includes_occurs. }
  split; [exact (Hgen dateRe eq_refl eq_refl)|].
  split; [exact (Hgen valueRe eq_refl eq_refl)|].
  split; [|split; reflexivity].
  intros Hy. apply (Hgen valueRe eq_refl eq_refl).
  exists "y". split; [cbn; tauto | exact Hy].
Qed.

Lemma what_the_expressions_match_witness :
  occurs_in "y" (Js.fold_case "Day") /\ Js.test valueRe "Day" = true.
Proof.
  assert (Hy : occurs_in "y" (Js.fold_case "Day"))
    by (exists "da", ""; reflexivity).
  split; [exact Hy|].
  destruct (what_the_expressions_match "Day") as (_ & _ & H & _).
  exact (H Hy).
Defined.

End Matching.

(** ** Report mode after a failed run *)

Section StuckReport.
Import App.

Lemma step_stuck s e :
  is_run e = false ->
  reportMode s = true /\ hasScript s = false ->
  reportMode (step s e) = true /\ hasScript (step s e) = false
  /\ highlightedMetrics (step s e) = highlightedMetrics s.
Proof.
  intros He [Hr Hs]. unfold step.
  destruct (enabled s e) eqn:En; [|now repeat split].
  destruct e; try discriminate He; cbn [handle];
    try (cbn in En; rewrite Hs in En;
         rewrite ?Bool.andb_false_r in En; discriminate En);
    try (unfold onUpload_backend; destruct o as [|[|] body]);
    now repeat split.
Qed.

(** X15. Report mode can get stuck: when a run fails while report mode is on,
    the fallback response has no script, so the narrative panel, its close
    button and the report mode button are all gone while [reportMode] stays
    on and the highlights stay as they were; no event other than another
    run changes that. *)
Theorem report_mode_stuck_after_failure (s : State) (es : list Event)
  (Hready : ready s = true) (Hon : reportMode s = true)
  (Hes : forall e, In e es -> is_run e = false) :
  let s' := run (runForecast ApiThrows s) es in
  reportMode s' = true
  /\ highlightedMetrics s' = highlightedMetrics s
  /\ enabled s' ClickReportMode = false
  /\ enabled s' ClickCloseReport = false
  /\ enabled s' ClickReplay = false
  /\ enabled s' ClickNextBeat = false.
Proof.
  cbn zeta.
  assert (H0 : reportMode (runForecast ApiThrows s) = true
               /\ hasScript (runForecast ApiThrows s) = false
               /\ highlightedMetrics (runForecast ApiThrows s)
                  = highlightedMetrics s).
  { unfold runForecast. rewrite Hready. cbn. now repeat split. }
  revert H0. generalize (runForecast ApiThrows s). intros s0.
  revert s0. induction es as [|e es IH]; intros s0 (Hr & Hs & Hh).
  - cbn [run fold_left]. split; [exact Hr|]. split; [exact Hh|].
    cbn. rewrite Hs, !Bool.andb_false_r. now repeat split.
  - cbn [run fold_left].
    destruct (step_stuck s0 e (Hes e (or_introl eq_refl)) (conj Hr Hs))
      as (Hr' & Hs' & Hh').
    apply IH.
    + intros e' He'. apply Hes. now right.
    + split; [exact Hr'|]. split; [exact Hs'|]. congruence.
Qed.

Lemma report_mode_stuck_after_failure_witness :
  let s := run init (Sample.session ++ [ChangeTab 0])%list in
  reportMode s = true
  /\ reportMode (run (runForecast ApiThrows s)
                     [ChangeTab 1; ClickReportMode; ClickCloseReport]) = true.
Proof.
  intros s.
  assert (Hready : ready s = true) by (vm_compute; reflexivity).
  assert (Hon : reportMode s = true) by (vm_compute; reflexivity).
  split; [exact Hon|].
  refine (proj1 (report_mode_stuck_after_failure s
                   [ChangeTab 1; ClickReportMode; ClickCloseReport]
                   Hready Hon _)).
  intros e [<- | [<- | [<- | []]]]; reflexivity.
Defined.

End StuckReport.
